(** * exam-prep: the PDF export of [src/index.tsx]

    A shallow embedding of [handlePdfExport] (lines 110-183 of
    [src/index.tsx]) together with the part of the jsPDF document object
    it drives, and the properties of the export that the design document
    states about it.

    Conventions of the embedding:
    - a JavaScript string is the list of its UTF-16 code units;
    - a JavaScript number used as a coordinate is a rational [Q]; every
      cursor value the code computes is an integer, so the arithmetic on
      it is exact;
    - the closure variables [doc] and [yPos] of [handlePdfExport] are the
      two fields of an explicit state threaded through a state-and-
      exception monad;
    - the collaborators that live outside the repository (the markdown
      normaliser, the text measurer of jsPDF, the page size jsPDF
      reports, [String.prototype.toLowerCase]) are variables of the
      sections below. *)

From Stdlib Require Import ZArith NArith QArith Lqa Lia.
From Stdlib Require Import Ascii String DecimalString.
From stdpp Require Import base decidable list gmap.

Set Default Proof Using "Type".

(** ** JavaScript strings *)

Module JsString.

(** A UTF-16 code unit. *)
Definition code_unit := N.

Definition t := list code_unit.

(** A string literal of the source, code unit by code unit. *)
Definition lit (s : string) : t :=
  List.map N_of_ascii (list_ascii_of_string s).

Definition is_digit (c : code_unit) : bool :=
  ((48 <=? c) && (c <=? 57))%N.

Definition is_upper (c : code_unit) : bool :=
  ((65 <=? c) && (c <=? 90))%N.

Definition is_lower (c : code_unit) : bool :=
  ((97 <=? c) && (c <=? 122))%N.

Definition is_ascii (c : code_unit) : bool := (c <? 128)%N.

(** The character class [[a-z0-9]] under the flag [i] (and without the
    flag [u]): a code unit belongs to it when its canonical form, the
    single-unit upper-casing that never maps a unit above 127 into
    ASCII, is one of [A-Z0-9]; these are the ASCII letters and digits. *)
Definition in_class_a_z_0_9_i (c : code_unit) : bool :=
  is_lower c || is_upper c || is_digit c.

Definition underscore : code_unit := 95%N.

(** [s.replace(/[^a-z0-9]/gi, '_')]: without the flag [u] the pattern is
    matched against single code units, and the flag [g] replaces every
    match. *)
Definition replace_non_alnum (s : t) : t :=
  List.map (fun c => if in_class_a_z_0_9_i c then c else underscore) s.

(** Lower-casing of one ASCII code unit. *)
Definition ascii_lower (c : code_unit) : code_unit :=
  if is_upper c then (c + 32)%N else c.

(** [String(n)] for a page number. *)
Definition of_nat (n : nat) : t :=
  lit (NilZero.string_of_uint (Nat.to_uint n)).

End JsString.

(** ** The jsPDF document object

    The part of jsPDF the export uses: a document is a list of pages,
    each the sequence of text operations drawn on it so far, a current
    page (1-based) and the current font, size and colour. *)

Module JsPDF.

Inductive FontStyle := Normal | Bold.

Inductive Align := AlignLeft | AlignCenter | AlignRight.

Inductive Color :=
| Gray (g : Z)
| RGB (r g b : Z).

(** One call of [doc.text]: the lines drawn (a single string is a
    one-line block), the anchor, the alignment, and the font state at
    the time of the call. *)
Record TextOp := mkTextOp {
  op_lines : list JsString.t;
  op_x : Q;
  op_y : Q;
  op_align : Align;
  op_font : FontStyle;
  op_size : Z;
  op_color : Color
}.

Abbreviation Page := (list TextOp).

Record t := mkDoc {
  pages : list Page;
  current : nat;
  font : FontStyle;
  fontSize : Z;
  textColor : Color
}.

(** [new jsPDF({ orientation: 'p', unit: 'pt', format: 'a4' })]: one
    empty page, which is current. *)
Definition create : t :=
  {| pages := [[]]; current := 1; font := Normal; fontSize := 16;
     textColor := Gray 0 |}.

Definition setFont (f : FontStyle) (d : t) : t :=
  {| pages := pages d; current := current d; font := f;
     fontSize := fontSize d; textColor := textColor d |}.

Definition setFontSize (s : Z) (d : t) : t :=
  {| pages := pages d; current := current d; font := font d;
     fontSize := s; textColor := textColor d |}.

Definition setTextColor (c : Color) (d : t) : t :=
  {| pages := pages d; current := current d; font := font d;
     fontSize := fontSize d; textColor := c |}.

(** [doc.text(lines, x, y, { align })] draws on the current page. *)
Definition text (ls : list JsString.t) (x y : Q) (a : Align) (d : t) : t :=
  let op := mkTextOp ls x y a (font d) (fontSize d) (textColor d) in
  {| pages := alter (fun p => p ++ [op]) (current d - 1) (pages d);
     current := current d; font := font d;
     fontSize := fontSize d; textColor := textColor d |}.

Definition getNumberOfPages (d : t) : nat := length (pages d).

(** [doc.addPage()] appends an empty page and makes it current. *)
Definition addPage (d : t) : t :=
  {| pages := pages d ++ [[]]; current := S (length (pages d));
     font := font d; fontSize := fontSize d; textColor := textColor d |}.

(** [doc.setPage(i)] selects page [i] when it exists. *)
Definition setPage (i : nat) (d : t) : t :=
  if (0 <? i)%nat && (i <=? length (pages d))%nat then
    {| pages := pages d; current := i; font := font d;
       fontSize := fontSize d; textColor := textColor d |}
  else d.

(** The operations drawn on page [i] (1-based). *)
Definition page (i : nat) (d : t) : Page :=
  default [] (pages d !! (i - 1)).

End JsPDF.

Import JsPDF.

(** ** Thrown values and the monad of the export *)

(** The value a collaborator throws. *)
Inductive exn := JsError (msg : JsString.t).

Inductive Result (A : Type) :=
| Ok (a : A)
| Throw (e : exn).

Arguments Ok {A} a.
Arguments Throw {A} e.

(** The closure variables of [handlePdfExport]: [doc] and [yPos]. *)
Record Env := mkEnv {
  doc : JsPDF.t;
  yPos : Q
}.

(** A statement of the export: it reads and writes [doc] and [yPos] and
    either completes or throws. *)
Definition M (A : Type) : Type := Env -> Result (A * Env).

#[global] Instance M_ret : MRet M := fun A a s => Ok (a, s).

#[global] Instance M_bind : MBind M := fun A B f m s =>
  match m s with
  | Ok (a, s') => f a s'
  | Throw e => Throw e
  end.

Definition raise {A} (r : Result A) : M A := fun s =>
  match r with
  | Ok a => Ok (a, s)
  | Throw e => Throw e
  end.

Definition on_doc (f : JsPDF.t -> JsPDF.t) : M unit := fun s =>
  Ok (tt, {| doc := f (doc s); yPos := yPos s |}).

Definition ask_doc {A} (f : JsPDF.t -> A) : M A := fun s => Ok (f (doc s), s).

Definition get_yPos : M Q := fun s => Ok (yPos s, s).

Definition set_yPos (y : Q) : M unit := fun s =>
  Ok (tt, {| doc := doc s; yPos := y |}).

(** [l.forEach(f)] *)
Fixpoint forEach {A} (f : A -> M unit) (l : list A) : M unit :=
  match l with
  | [] => mret tt
  | a :: l' => f a;; forEach f l'
  end.

(** [for (let i = from; i <= from + count - 1; i++) body(i)] *)
Fixpoint for_count (from count : nat) (body : nat -> M unit) : M unit :=
  match count with
  | O => mret tt
  | S count' => body from;; for_count (S from) count' body
  end.

(** [x > y] on numbers. *)
Definition Qgtb (x y : Q) : bool := negb (Qle_bool x y).

(** The numeric value of [lines.length]. *)
Definition len {A} (l : list A) : Q := inject_Z (Z.of_nat (length l)).

(** ** The application state the export reads and the effect it has *)

(** An element of [qaPairs]. *)
Record QAPair := mkQA {
  q : JsString.t;
  a : JsString.t
}.

(** The React state [handlePdfExport] closes over, and the files
    [doc.save] has handed to the browser so far. *)
Record App := mkApp {
  chatTitle : JsString.t;
  qaPairs : list QAPair;
  downloads : list (JsString.t * JsPDF.t)
}.

(** ** The export *)

Module Pdf.

Section PdfExport.

Local Open Scope Q_scope.

(** [doc.internal.pageSize.getHeight()] and [getWidth()]. *)
Variables pageHeight pageWidth : Q.

(** [marked.parse(text)] followed by reading [innerText] of an element
    holding the HTML; [marked.parse] may throw. *)
Variable toPlainText : JsString.t -> Result JsString.t.

(** [doc.splitTextToSize(text, maxWidth)], which measures with the
    current font and size of the document. *)
Variable splitTextToSize :
  FontStyle -> Z -> JsString.t -> Q -> list JsString.t.

(** [String.prototype.toLowerCase]. *)
Variable toLowerCase : JsString.t -> JsString.t.

Definition pageMargin : Q := 50.

Definition contentWidth : Q := pageWidth - pageMargin * 2.

(** The lowest cursor position a block may reach without a break. *)
Definition bottomLimit : Q := pageHeight - pageMargin.

Definition doc_splitTextToSize (s : JsString.t) (w : Q) : M (list JsString.t) :=
  ask_doc (fun d => splitTextToSize (font d) (fontSize d) s w).

Section Compose.

(** The title the export closes over. *)
Variable title : JsString.t.

(** Lines 121-127. *)
Definition addFooter (pageNumber : nat) : M unit :=
  on_doc (setFont Normal);;
  on_doc (setFontSize 9);;
  on_doc (setTextColor (Gray 150));;
  on_doc (text [title] pageMargin (pageHeight - 20) AlignLeft);;
  on_doc (text [JsString.of_nat pageNumber] (pageWidth - pageMargin)
            (pageHeight - 20) AlignRight).

(** Lines 129-149. *)
Definition renderMarkdown (text : JsString.t) : M unit :=
  innerText ← raise (toPlainText text);
  on_doc (setFont Normal);;
  on_doc (setFontSize 11);;
  on_doc (setTextColor (RGB 50 50 50));;
  splitText ← doc_splitTextToSize innerText contentWidth;
  let textHeight := len splitText * 12 in
  y ← get_yPos;
  (if Qgtb (y + textHeight) (pageHeight - pageMargin) then
     n ← ask_doc getNumberOfPages;
     addFooter n;;
     on_doc addPage;;
     set_yPos pageMargin
   else mret tt);;
  y ← get_yPos;
  on_doc (JsPDF.text splitText pageMargin y AlignLeft);;
  set_yPos (y + (textHeight + 10)).

(** Lines 151-157: the title heading. *)
Definition drawTitle : M unit :=
  set_yPos 80;;
  on_doc (setFont Bold);;
  on_doc (setFontSize 24);;
  on_doc (setTextColor (RGB 0 0 0));;
  titleLines ← doc_splitTextToSize title contentWidth;
  y ← get_yPos;
  on_doc (text titleLines (pageWidth / 2) y AlignCenter);;
  set_yPos (y + (len titleLines * 26 + 40)).

(** Lines 160-170: the question of one pair. *)
Definition drawQuestion (qa : QAPair) : M unit :=
  on_doc (setFont Bold);;
  on_doc (setFontSize 12);;
  on_doc (setTextColor (RGB 0 0 0));;
  qLines ← doc_splitTextToSize (q qa) contentWidth;
  y ← get_yPos;
  (if Qgtb (y + len qLines * 14) (pageHeight - pageMargin) then
     n ← ask_doc getNumberOfPages;
     addFooter n;;
     on_doc addPage;;
     set_yPos pageMargin
   else mret tt);;
  y ← get_yPos;
  on_doc (text qLines pageMargin y AlignLeft);;
  set_yPos (y + (len qLines * 14 + 15)).

(** Line 173: the space after a pair. *)
Definition pairSpacing : M unit :=
  y ← get_yPos;
  set_yPos (y + 25).

(** The body of the [forEach], lines 160-173. *)
Definition drawPair (qa : QAPair) : M unit :=
  drawQuestion qa;;
  renderMarkdown (a qa);;
  pairSpacing.

(** Lines 178-179: the body of the footer loop. *)
Definition stampPage (i : nat) : M unit :=
  on_doc (setPage i);;
  addFooter i.

(** Lines 176-180: the footer pass. *)
Definition stampFooters : M unit :=
  totalPages ← ask_doc getNumberOfPages;
  for_count 1 totalPages stampPage.

(** Lines 151-174: everything drawn before the footer pass. *)
Definition layoutContent (pairs : list QAPair) : M unit :=
  drawTitle;;
  forEach drawPair pairs.

(** Lines 113-180, from the fresh document of line 113 and the
    cursor of line 119. *)
Definition compose (pairs : list QAPair) : Result (unit * Env) :=
  (layoutContent pairs;; stampFooters)
    {| doc := JsPDF.create; yPos := pageMargin |}.

End Compose.

(** Line 182: the name of the saved file. *)
Definition fileName (title : JsString.t) : JsString.t :=
  toLowerCase (JsString.replace_non_alnum title) ++ JsString.lit ".pdf".

(** [handlePdfExport], lines 110-183: the application after the call,
    and the exception that escaped it, if any. *)
Definition handlePdfExport (app : App) : App * option exn :=
  match qaPairs app with
  | [] => (app, None)
  | _ =>
    match compose (chatTitle app) (qaPairs app) with
    | Throw e => (app, Some e)
    | Ok (_, s) =>
      ({| chatTitle := chatTitle app; qaPairs := qaPairs app;
          downloads := downloads app ++ [(fileName (chatTitle app), doc s)] |},
       None)
    end
  end.

End PdfExport.

(** ** Notions the statements below use *)

(** What [replace] and [toLowerCase] together do to one code unit of the
    title. *)
Definition fileName_unit (c : JsString.code_unit) : JsString.code_unit :=
  if JsString.in_class_a_z_0_9_i c then JsString.ascii_lower c
  else JsString.underscore.

(** [toLowerCase] on a string of ASCII code units lower-cases the letters
    [A-Z] and keeps every other unit. *)
Definition lowers_ascii (toLowerCase : JsString.t -> JsString.t) : Prop :=
  forall s : JsString.t,
    Forall (fun c => JsString.is_ascii c = true) s ->
    toLowerCase s = List.map JsString.ascii_lower s.

#[global] Instance Align_eq_dec : EqDecision Align.
Proof. solve_decision. Defined.

(** The page-number stamps of a page. The page number of a footer is the
    only right-aligned text the export draws. *)
Definition pageNumberStamps (p : Page) : list TextOp :=
  filter (fun op => op_align op = AlignRight) p.

(** The operation drawn last on the current page. *)
Definition lastDrawn (d : JsPDF.t) : option TextOp :=
  last (page (current d) d).

(** The current page of the document exists. *)
Definition current_exists (d : JsPDF.t) : Prop :=
  (1 <= current d <= length (pages d))%nat.

(** The current page of the document is its last page. *)
Definition on_last_page (d : JsPDF.t) : Prop :=
  (1 <= length (pages d))%nat /\ current d = length (pages d).

(** The four places where the export advances the cursor: after the
    title (line 157), after a question (line 170), after the text of an
    answer (line 148) and after a pair (line 173). *)
Inductive Advance :=
| TitleAdvance
| QuestionAdvance
| AnswerAdvance
| PairAdvance.

Section Notions.

Local Open Scope Q_scope.

Variables pageHeight pageWidth : Q.
Variable toPlainText : JsString.t -> Result JsString.t.
Variable splitTextToSize :
  FontStyle -> Z -> JsString.t -> Q -> list JsString.t.
Variable title : JsString.t.

(** The state in which line 151 finds [doc] and [yPos]. *)
Definition start : Env := {| doc := JsPDF.create; yPos := pageMargin |}.

(** The two operations one call [addFooter(n)] draws. *)
Definition footerTitleOp : TextOp :=
  mkTextOp [title] pageMargin (pageHeight - 20) AlignLeft Normal 9 (Gray 150).

Definition footerNumberOp (n : nat) : TextOp :=
  mkTextOp [JsString.of_nat n] (pageWidth - pageMargin) (pageHeight - 20)
    AlignRight Normal 9 (Gray 150).

Definition footer (n : nat) : list TextOp :=
  [footerTitleOp; footerNumberOp n].

(** The document after [addFooter(n)]. *)
Definition stamped (n : nat) (d : JsPDF.t) : JsPDF.t :=
  {| pages := alter (fun p => p ++ footer n) (current d - 1)%nat (pages d);
     current := current d; font := Normal; fontSize := 9;
     textColor := Gray 150 |}.

(** The document and cursor after the break of lines 142-144. *)
Definition broken (s : Env) : Env :=
  {| doc := addPage (stamped (getNumberOfPages (doc s)) (doc s));
     yPos := pageMargin |}.

(** A block of lines [ls] and height [h] placed from [s], as lines
    141-148 and 164-170 do it: the break when it is due, the block
    drawn at the cursor, the cursor advanced by [h + gap]. *)
Definition placeBlock (ls : list JsString.t) (h gap : Q) (s : Env) : Env :=
  let s2 := if Qgtb (yPos s + h) (bottomLimit pageHeight) then broken s else s in
  {| doc := text ls pageMargin (yPos s2) AlignLeft (doc s2);
     yPos := yPos s2 + (h + gap) |}.

(** The document after the footer pass over the pages [from],
    [from + 1], ..., [from + count - 1] (lines 177-180). *)
Fixpoint stampedFrom (from count : nat) (d : JsPDF.t) : JsPDF.t :=
  match count with
  | O => d
  | S count' => stampedFrom (S from) count' (stamped from (setPage from d))
  end.

(** The break decision before a block of lines [ls] and height [h],
    followed by an advance of [h + gap], leads from [s] to [s']: a
    page is added exactly when the block would pass the bottom limit;
    then the block is the first operation of the new page, drawn at
    the top margin; otherwise the block stays on the page it was
    pending on. In particular a block that ends exactly on the bottom
    limit adds no page and one that ends a unit below it adds one. *)
Definition BreakRule (ls : list JsString.t) (h gap : Q) (s s' : Env) : Prop :=
  let n := getNumberOfPages (doc s) in
  (bottomLimit pageHeight < yPos s + h <-> getNumberOfPages (doc s') = S n)
  /\ (bottomLimit pageHeight < yPos s + h ->
      current (doc s') = S n
      /\ (exists op, page (S n) (doc s') = [op]
                     /\ op_lines op = ls /\ op_y op = pageMargin)
      /\ yPos s' = pageMargin + (h + gap))
  /\ (yPos s + h <= bottomLimit pageHeight ->
      getNumberOfPages (doc s') = n
      /\ current (doc s') = current (doc s)
      /\ yPos s' = yPos s + (h + gap))
  /\ (yPos s + h == bottomLimit pageHeight -> getNumberOfPages (doc s') = n)
  /\ (yPos s + h == bottomLimit pageHeight + 1 ->
      getNumberOfPages (doc s') = S n).

(** A block of lines [ls] and height [h] placed between [s] and [s']
    is one operation on one page, the last one drawn on the page that
    is current afterwards, and it ends above the bottom limit: it is
    either appended to the page that was current, or alone on a new
    last page after the footer of the page that was current. *)
Definition OnOnePage (ls : list JsString.t) (h : Q) (s s' : Env) : Prop :=
  exists op : TextOp,
    op_lines op = ls
    /\ lastDrawn (doc s') = Some op
    /\ op_y op + h <= bottomLimit pageHeight
    /\ (pageMargin <= yPos s -> pageMargin <= op_y op)
    /\ (pages (doc s')
        = alter (fun p => p ++ [op]) (current (doc s) - 1)%nat (pages (doc s))
        \/ pages (doc s')
           = alter (fun p => p ++ footer (getNumberOfPages (doc s)))
               (current (doc s) - 1)%nat (pages (doc s)) ++ [[op]]).

(** The footers of the document during the content pass: the current
    page is the last one and has no footer yet, every page before it
    has the one footer it was given when it was left. *)
Definition FootersPending (d : JsPDF.t) : Prop :=
  on_last_page d
  /\ forall i : nat,
      (1 <= i <= getNumberOfPages d)%nat ->
      pageNumberStamps (page i d)
      = if decide (i = getNumberOfPages d) then [] else [footerNumberOp i].

(** The states of the export immediately after an advance of the
    cursor, by the advance that led to them. *)
Inductive AfterAdvance : Advance -> Env -> Prop :=
| after_title s :
    drawTitle pageWidth splitTextToSize title start = Ok (tt, s) ->
    AfterAdvance TitleAdvance s
| after_first_question qa s s' :
    AfterAdvance TitleAdvance s ->
    drawQuestion pageHeight pageWidth splitTextToSize title qa s = Ok (tt, s') ->
    AfterAdvance QuestionAdvance s'
| after_next_question qa s s' :
    AfterAdvance PairAdvance s ->
    drawQuestion pageHeight pageWidth splitTextToSize title qa s = Ok (tt, s') ->
    AfterAdvance QuestionAdvance s'
| after_answer text s s' :
    AfterAdvance QuestionAdvance s ->
    renderMarkdown pageHeight pageWidth toPlainText splitTextToSize title text s
      = Ok (tt, s') ->
    AfterAdvance AnswerAdvance s'
| after_pair s s' :
    AfterAdvance AnswerAdvance s ->
    pairSpacing s = Ok (tt, s') ->
    AfterAdvance PairAdvance s'.

End Notions.

End Pdf.

Import Pdf.

(** ** A concrete instance of the collaborators

    An A4 page in points, a normaliser that returns its input (and one
    that throws on a marked answer), a measurer that breaks at line
    feeds only, and the lower-casing of ASCII letters. *)

Module Sample.

Definition a4_height : Q := 841.89.

Definition a4_width : Q := 595.28.

Definition plain (s : JsString.t) : Result JsString.t := Ok s.

(** A normaliser that throws on the one-unit string [U+0000]. *)
Definition plain_or_throw (s : JsString.t) : Result JsString.t :=
  match s with
  | [0%N] => Throw (JsError (JsString.lit "marked(): input parameter is undefined or null"))
  | _ => Ok s
  end.

(** Breaks at line feeds and nowhere else; the empty string is one
    empty line. *)
Fixpoint split_lines (s : JsString.t) : list JsString.t :=
  match s with
  | [] => [[]]
  | c :: s' =>
    if (c =? 10)%N then [] :: split_lines s'
    else match split_lines s' with
         | l :: ls => (c :: l) :: ls
         | [] => [[c]]
         end
  end.

Definition split (f : FontStyle) (size : Z) (s : JsString.t) (w : Q)
  : list JsString.t := split_lines s.

Definition lower (s : JsString.t) : JsString.t :=
  List.map JsString.ascii_lower s.

(** A text of [n] lines, each the letter x. *)
Fixpoint tall (n : nat) : JsString.t :=
  match n with
  | O => []
  | 1%nat => [120%N]
  | S n' => 120%N :: 10%N :: tall n'
  end.

(** A transcript of one pair whose question wraps into 46 lines. *)
Definition longQuestion : list QAPair :=
  [mkQA (tall 46) (JsString.lit "A")].

(** A transcript of one pair whose answer is still empty. *)
Definition pendingAnswer : list QAPair :=
  [mkQA (JsString.lit "What is 2+2?") []].

(** A transcript of one pair whose answer the normaliser
    [plain_or_throw] rejects. *)
Definition rejectedAnswer : list QAPair :=
  [mkQA (JsString.lit "Q") [0%N]].

Definition export := handlePdfExport a4_height a4_width plain split lower.

Definition run (title : JsString.t) (pairs : list QAPair) :=
  compose a4_height a4_width plain split title pairs.

End Sample.


(** ** The chat component: its state, handlers and effects

    The parts of [App] (lines 15-108 and 185-242) around the export:
    the React state, [handleNewChat], [handleSubmit] on both sides of
    its [await], the two effects on [localStorage] and the [disabled]
    attributes of the two buttons. The request to the model and
    [window.confirm] are inputs of the handlers; [JSON.stringify] and
    [JSON.parse] are variables. *)

Module Chat.

(** The code units [String.prototype.trim] strips: WhiteSpace and
    LineTerminator. *)
Definition is_space (c : JsString.code_unit) : bool :=
  ((c =? 9) || (c =? 10) || (c =? 11) || (c =? 12) || (c =? 13)
   || (c =? 32) || (c =? 160) || (c =? 5760)
   || ((8192 <=? c) && (c <=? 8202))
   || (c =? 8232) || (c =? 8233) || (c =? 8239) || (c =? 8287)
   || (c =? 12288) || (c =? 65279))%N.

Fixpoint trimStart (s : JsString.t) : JsString.t :=
  match s with
  | [] => []
  | c :: s' => if is_space c then trimStart s' else s
  end.

Definition trimEnd (s : JsString.t) : JsString.t :=
  reverse (trimStart (reverse s)).

(** [s.trim()] *)
Definition trim (s : JsString.t) : JsString.t := trimEnd (trimStart s).

(** Line 78: [q.substring(0, 40) + (q.length > 40 ? '...' : '')]. *)
Definition deriveTitle (currentQuestion : JsString.t) : JsString.t :=
  take 40 currentQuestion
  ++ (if (40 <? length currentQuestion)%nat then JsString.lit "..." else []).

Definition defaultTitle : JsString.t := JsString.lit "Exam Answer Generator".

Definition apology : JsString.t :=
  JsString.lit "Sorry, an error occurred. Please try again.".

(** The state of the component (lines 16-19), with the application
    state the export reads. *)
Record View := mkView {
  question : JsString.t;
  isLoading : bool;
  app : App
}.

(** The state of the first render. *)
Definition initial : View :=
  {| question := []; isLoading := false;
     app := {| chatTitle := defaultTitle; qaPairs := []; downloads := [] |} |}.

(** Line 232: [onChange] of the textarea. *)
Definition typed (s : JsString.t) (v : View) : View :=
  {| question := s; isLoading := isLoading v; app := app v |}.

(** Lines 56-63; [confirmed] is what [window.confirm] returns when it
    is called. *)
Definition handleNewChat (confirmed : bool) (v : View) : View :=
  if negb (Nat.eqb (length (qaPairs (app v))) 0) && negb confirmed then v
  else
    {| question := []; isLoading := isLoading v;
       app := {| chatTitle := defaultTitle; qaPairs := [];
                 downloads := downloads (app v) |} |}.

(** Lines 65-80, [handleSubmit] up to its [await]: the state after it
    and the question sent to the model, if any. *)
Definition handleSubmit_begin (v : View) : View * option JsString.t :=
  if Nat.eqb (length (trim (question v))) 0 || isLoading v then (v, None)
  else
    let currentQuestion := trim (question v) in
    let newQaPairs := qaPairs (app v) ++ [mkQA currentQuestion []] in
    ({| question := []; isLoading := true;
        app := {| chatTitle :=
                    if Nat.eqb (length (qaPairs (app v))) 0
                    then deriveTitle currentQuestion
                    else chatTitle (app v);
                  qaPairs := newQaPairs;
                  downloads := downloads (app v) |} |},
     Some currentQuestion).

(** Lines 93-97 and 100-104: the updater handed to [setQaPairs]. On an
    empty array [updatedPairs[-1]] is [undefined] and the assignment
    to its field throws a [TypeError]. *)
Definition setLastAnswer (answer : JsString.t) (prevPairs : list QAPair)
  : Result (list QAPair) :=
  match prevPairs !! (length prevPairs - 1)%nat with
  | Some qa => Ok (<[(length prevPairs - 1)%nat := mkQA (q qa) answer]> prevPairs)
  | None =>
    Throw (JsError (JsString.lit
             "TypeError: Cannot set properties of undefined (setting 'a')"))
  end.

(** Lines 84-107, [handleSubmit] after its [await]: [response] is the
    text of the model or what the request threw. The updater runs on
    the transcript of that moment, and loading ends in any case. *)
Definition handleSubmit_end (response : Result JsString.t) (v : View)
  : Result View :=
  let answer := match response with Ok text => text | Throw _ => apology end in
  match setLastAnswer answer (qaPairs (app v)) with
  | Ok updatedPairs =>
    Ok {| question := question v; isLoading := false;
          app := {| chatTitle := chatTitle (app v); qaPairs := updatedPairs;
                    downloads := downloads (app v) |} |}
  | Throw e => Throw e
  end.

(** Line 237: [disabled] of the Ask button. *)
Definition askDisabled (v : View) : bool :=
  isLoading v || Nat.eqb (length (trim (question v))) 0.

(** Line 195: [disabled] of the Export button. *)
Definition exportDisabled (v : View) : bool :=
  Nat.eqb (length (qaPairs (app v))) 0.

(** *** The two effects on [localStorage] *)

Abbreviation Storage := (gmap (list N) (list N)).

Definition storageKey : JsString.t := JsString.lit "exam-helper-chat".

Section Persist.

(** [JSON.stringify({ title, qaPairs })]. *)
Variable stringify : JsString.t * list QAPair -> JsString.t.

(** [JSON.parse(savedChat)] and the reading of [title] and [qaPairs]
    off the result; [JSON.parse] may throw. *)
Variable parse : JsString.t -> Result (JsString.t * list QAPair).

(** Lines 35-41. *)
Definition saveEffect (v : View) (storage : Storage) : Storage :=
  if (0 <? length (qaPairs (app v)))%nat
  then <[storageKey := stringify (chatTitle (app v), qaPairs (app v))]> storage
  else delete storageKey storage.

(** Lines 25-32; a missing item is [null] and an empty one is the
    empty string, both falsy. *)
Definition loadEffect (storage : Storage) (v : View) : Result View :=
  match storage !! storageKey with
  | Some (c :: savedChat) =>
    match parse (c :: savedChat) with
    | Ok (title, pairs) =>
      Ok {| question := question v; isLoading := isLoading v;
            app := {| chatTitle := title; qaPairs := pairs;
                      downloads := downloads (app v) |} |}
    | Throw e => Throw e
    end
  | _ => Ok v
  end.

End Persist.

(** *** The component as a transition system *)

Inductive Event :=
| Typed (s : JsString.t)
| SubmitClicked
| Answered (response : Result JsString.t)
| NewChatClicked (confirmed : bool)
| ExportClicked.

Section Transitions.

Variables pageHeight pageWidth : Q.
Variable toPlainText : JsString.t -> Result JsString.t.
Variable splitTextToSize :
  FontStyle -> Z -> JsString.t -> Q -> list JsString.t.
Variable toLowerCase : JsString.t -> JsString.t.

(** One event of the user or of the model. An answer arrives only
    while a request is under way, that is while [isLoading]; an export
    that throws leaves the state as it is. *)
Inductive Step : View -> Event -> View -> Prop :=
| step_typed s v : Step v (Typed s) (typed s v)
| step_submit v : Step v SubmitClicked (fst (handleSubmit_begin v))
| step_answered response v v' :
    isLoading v = true ->
    handleSubmit_end response v = Ok v' ->
    Step v (Answered response) v'
| step_new_chat confirmed v :
    Step v (NewChatClicked confirmed) (handleNewChat confirmed v)
| step_export v :
    Step v ExportClicked
      {| question := question v; isLoading := isLoading v;
         app := fst (handlePdfExport pageHeight pageWidth toPlainText
                       splitTextToSize toLowerCase (app v)) |}.

(** The states the component reaches from its first render, when no
    chat is restored from [localStorage]. *)
Inductive Reachable : View -> Prop :=
| reach_initial : Reachable initial
| reach_step v e v' : Reachable v -> Step v e v' -> Reachable v'.

End Transitions.

(** A string [trim] leaves alone: neither its first nor its last code
    unit is stripped. *)
Definition Trimmed (s : JsString.t) : Prop :=
  (forall c, head s = Some c -> is_space c = false)
  /\ (forall c, last s = Some c -> is_space c = false).

End Chat.

(** ** The content of an exported document *)

Module Content.

Section Blocks.

Local Open Scope Q_scope.

Variables pageHeight pageWidth : Q.
Variable toPlainText : JsString.t -> Result JsString.t.
Variable splitTextToSize :
  FontStyle -> Z -> JsString.t -> Q -> list JsString.t.

(** The operation is drawn on the line of the footers, 20 above the
    bottom edge of the page. *)
Definition onFooterLine (op : TextOp) : bool :=
  Qeq_bool (op_y op) (pageHeight - 20).

(** The operations of the document that are not on the footer line,
    page after page, in the order they were drawn. *)
Definition contentOps (d : JsPDF.t) : list TextOp :=
  List.filter (fun op => negb (onFooterLine op)) (concat (pages d)).

(** The lines the title, a question and an answer wrap into (lines
    155, 163 and 138). *)
Definition titleLines (title : JsString.t) : list JsString.t :=
  splitTextToSize Bold 24 title (contentWidth pageWidth).

Definition questionLines (qa : QAPair) : list JsString.t :=
  splitTextToSize Bold 12 (q qa) (contentWidth pageWidth).

Definition answerLines (qa : QAPair) : list JsString.t :=
  match toPlainText (a qa) with
  | Ok plain => splitTextToSize Normal 11 plain (contentWidth pageWidth)
  | Throw _ => []
  end.

(** The blocks of a transcript in reading order. *)
Definition blocksOf (title : JsString.t) (pairs : list QAPair)
  : list (list JsString.t) :=
  titleLines title
  :: flat_map (fun qa => [questionLines qa; answerLines qa]) pairs.

(** What the cursor advances by over a pair (lines 170, 148, 173). *)
Definition pairHeight (qa : QAPair) : Q :=
  (len (questionLines qa) * 14 + 15)
  + (len (answerLines qa) * 12 + 10)
  + 25.

Fixpoint pairsHeight (pairs : list QAPair) : Q :=
  match pairs with
  | [] => 0
  | qa :: rest => pairHeight qa + pairsHeight rest
  end.

(** Where the cursor ends when the whole transcript is laid out
    without a break. *)
Definition flowEnd (title : JsString.t) (pairs : list QAPair) : Q :=
  80 + (len (titleLines title) * 26 + 40) + pairsHeight pairs.

(** The first operation of page 1 is the heading, and the first
    operation of every later page is a block drawn at the top margin
    with the font state a footer leaves behind. *)
Definition PagesStartWithBlock (title : JsString.t) (d : JsPDF.t) : Prop :=
  head (page 1 d)
  = Some (mkTextOp (titleLines title) (pageWidth / 2) 80 AlignCenter
            Bold 24 (RGB 0 0 0))
  /\ forall i : nat,
      (2 <= i <= getNumberOfPages d)%nat ->
      exists ls, head (page i d)
                 = Some (mkTextOp ls pageMargin pageMargin AlignLeft
                           Normal 9 (Gray 150)).

(** A block drawn first on a page a break has opened: at the top
    margin, in the font state the footer of the page before left. *)
Definition blockAtTop (ls : list JsString.t) : TextOp :=
  mkTextOp ls pageMargin pageMargin AlignLeft Normal 9 (Gray 150).

(** Page [i] of the document [d], exported from [pairs], starts with
    the block whose break opened it: a pair [qa] of the transcript has
    a question (or an answer) that did not fit below the cursor which
    the pairs before it (and its question) had left, at a moment when
    the document had [i - 1] pages, and that block is the first
    operation of page [i]. *)
Definition OpenedByBreak (title : JsString.t) (pairs : list QAPair)
    (i : nat) (d : JsPDF.t) : Prop :=
  exists (before after : list QAPair) (qa : QAPair) (s : Env),
    pairs = before ++ qa :: after
    /\ layoutContent pageHeight pageWidth toPlainText splitTextToSize
         title before start = Ok (tt, s)
    /\ ((bottomLimit pageHeight < yPos s + len (questionLines qa) * 14
         /\ i = S (getNumberOfPages (doc s))
         /\ head (page i d) = Some (blockAtTop (questionLines qa)))
        \/ (exists s1 : Env,
              drawQuestion pageHeight pageWidth splitTextToSize title qa s
              = Ok (tt, s1)
              /\ bottomLimit pageHeight < yPos s1 + len (answerLines qa) * 12
              /\ i = S (getNumberOfPages (doc s1))
              /\ head (page i d) = Some (blockAtTop (answerLines qa)))).

End Blocks.

End Content.

(** ** Concrete states of the component *)

Module Fixture.

Import Chat.

(** The user has typed a question with blanks around it. *)
Definition typing : View := typed (JsString.lit "  What is 2+2? ") initial.

(** The question is submitted and the request is under way. *)
Definition asked : View := fst (handleSubmit_begin typing).

(** The model has answered. *)
Definition answered : View :=
  match handleSubmit_end (Ok (JsString.lit "4")) asked with
  | Ok v => v
  | Throw _ => asked
  end.

(** A stand-in for [JSON.stringify] and [JSON.parse] on the one chat
    of [answered]. *)
Definition storedText (chat : JsString.t * list QAPair) : JsString.t :=
  JsString.lit "{}".

Definition readBack (text : JsString.t) : Result (JsString.t * list QAPair) :=
  Ok (chatTitle (app answered), qaPairs (app answered)).

(** A transcript whose second answer the normaliser
    [Sample.plain_or_throw] rejects. *)
Definition secondRejected : list QAPair :=
  [mkQA (JsString.lit "Q1") (JsString.lit "A1");
   mkQA (JsString.lit "Q2") [0%N];
   mkQA (JsString.lit "Q3") (JsString.lit "A3")].

(** The state after an export of the answered chat. *)
Definition exported : View :=
  {| question := question answered; isLoading := isLoading answered;
     app := fst (Sample.export (app answered)) |}.

(** The state in which the export of [Sample.longQuestion] under the
    title "T" ends, and that of the answered chat. *)
Definition twoPages : Env :=
  match Sample.run (JsString.lit "T") Sample.longQuestion with
  | Ok (_, s) => s
  | Throw _ => start
  end.

Definition onePage : Env :=
  match Sample.run (chatTitle (app answered)) (qaPairs (app answered)) with
  | Ok (_, s) => s
  | Throw _ => start
  end.

End Fixture.

(** * Properties *)

(** ** The name of the saved file *)

Section FileName.

Variable toLowerCase : JsString.t -> JsString.t.

Hypothesis toLowerCase_ascii : lowers_ascii toLowerCase.

Lemma in_class_is_ascii (c : JsString.code_unit) :
  JsString.in_class_a_z_0_9_i c = true -> JsString.is_ascii c = true.
Proof.
  unfold JsString.in_class_a_z_0_9_i, JsString.is_lower, JsString.is_upper,
    JsString.is_digit, JsString.is_ascii.
  rewrite !orb_true_iff, !andb_true_iff, !N.leb_le, N.ltb_lt. lia.
Qed.

Lemma replace_non_alnum_ascii (s : JsString.t) :
  Forall (fun c => JsString.is_ascii c = true) (JsString.replace_non_alnum s).
Proof.
  unfold JsString.replace_non_alnum. apply Forall_map, Forall_forall.
  intros c _. simpl.
  destruct (JsString.in_class_a_z_0_9_i c) eqn:E.
  - now apply in_class_is_ascii.
  - reflexivity.
Qed.

Lemma lower_of_replaced (c : JsString.code_unit) :
  JsString.ascii_lower
    (if JsString.in_class_a_z_0_9_i c then c else JsString.underscore)
  = fileName_unit c.
Proof.
  unfold fileName_unit. destruct (JsString.in_class_a_z_0_9_i c); reflexivity.
Qed.

Lemma fileName_units (title : JsString.t) :
  fileName toLowerCase title
  = List.map fileName_unit title ++ JsString.lit ".pdf".
Proof using toLowerCase_ascii.
  unfold fileName. rewrite toLowerCase_ascii by apply replace_non_alnum_ascii.
  f_equal. unfold JsString.replace_non_alnum. rewrite List.map_map.
  apply List.map_ext. intros c. apply lower_of_replaced.
Qed.

(** C5, as amended: the file name is the title with every code unit
    outside [a-z0-9] (case-insensitively) replaced by an underscore and
    every letter lower-cased, followed by [.pdf]; on the title
    "Q1 (5 marks): Explain Photosynthesis..." this is
    [q1__5_marks___explain_photosynthesis___.pdf], one underscore for
    each of the ten replaced characters. *)
Theorem fileName_derivation :
  (forall title : JsString.t,
      fileName toLowerCase title
      = List.map fileName_unit title ++ JsString.lit ".pdf")
  /\ fileName toLowerCase (JsString.lit "Q1 (5 marks): Explain Photosynthesis...")
     = JsString.lit "q1__5_marks___explain_photosynthesis___.pdf".
Proof using toLowerCase_ascii.
  split.
  - apply fileName_units.
  - rewrite fileName_units. reflexivity.
Qed.

End FileName.

Lemma fileName_derivation_witness :
  lowers_ascii Sample.lower
  /\ fileName Sample.lower (JsString.lit "a B!")
     = List.map fileName_unit (JsString.lit "a B!") ++ JsString.lit ".pdf".
Proof.
  split.
  - intros s _. reflexivity.
  - apply (fileName_derivation Sample.lower). intros s _. reflexivity.
Defined.

(** C5, the example as the design document has it: the file name of
    "Q1 (5 marks): Explain Photosynthesis..." is not
    [q1_5_marks__explain_photosynthesis___.pdf]. *)
Lemma fileName_example_differs :
  fileName Sample.lower (JsString.lit "Q1 (5 marks): Explain Photosynthesis...")
  <> JsString.lit "q1_5_marks__explain_photosynthesis___.pdf".
Proof. vm_compute. discriminate. Qed.

(** ** The statements of the export, in closed form *)

Ltac run_monad :=
  unfold mbind, M_bind, mret, M_ret, raise, on_doc, ask_doc, get_yPos,
    set_yPos; simpl.

Lemma Qgtb_true (x y : Q) : Qgtb x y = true <-> (y < x)%Q.
Proof.
  unfold Qgtb. rewrite negb_true_iff. split.
  - intros H. apply Qnot_le_lt. intros L.
    apply Qle_bool_iff in L. congruence.
  - intros H. destruct (Qle_bool x y) eqn:E; [|reflexivity].
    apply Qle_bool_iff in E. exfalso. apply (Qlt_not_le _ _ H E).
Qed.

Lemma Qgtb_false (x y : Q) : Qgtb x y = false <-> (x <= y)%Q.
Proof.
  unfold Qgtb. rewrite negb_false_iff. apply Qle_bool_iff.
Qed.

Lemma len_nonneg {A} (l : list A) : (0 <= len l)%Q.
Proof.
  unfold len. change 0%Q with (inject_Z 0). rewrite <- Zle_Qle. lia.
Qed.

Section Layout.

Local Open Scope Q_scope.

Variables pageHeight pageWidth : Q.
Variable toPlainText : JsString.t -> Result JsString.t.
Variable splitTextToSize :
  FontStyle -> Z -> JsString.t -> Q -> list JsString.t.
Variable title : JsString.t.

Local Abbreviation addFooter := (addFooter pageHeight pageWidth title).
Local Abbreviation renderMarkdown :=
  (renderMarkdown pageHeight pageWidth toPlainText splitTextToSize title).
Local Abbreviation drawTitle := (drawTitle pageWidth splitTextToSize title).
Local Abbreviation drawQuestion :=
  (drawQuestion pageHeight pageWidth splitTextToSize title).
Local Abbreviation drawPair :=
  (drawPair pageHeight pageWidth toPlainText splitTextToSize title).
Local Abbreviation stampFooters := (stampFooters pageHeight pageWidth title).
Local Abbreviation stampPage := (stampPage pageHeight pageWidth title).
Local Abbreviation layoutContent :=
  (layoutContent pageHeight pageWidth toPlainText splitTextToSize title).
Local Abbreviation compose :=
  (compose pageHeight pageWidth toPlainText splitTextToSize title).
Local Abbreviation stamped := (stamped pageHeight pageWidth title).
Local Abbreviation broken := (broken pageHeight pageWidth title).
Local Abbreviation footer := (footer pageHeight pageWidth title).
Local Abbreviation bottomLimit := (bottomLimit pageHeight).
Local Abbreviation contentWidth := (contentWidth pageWidth).
Local Abbreviation AfterAdvance :=
  (AfterAdvance pageHeight pageWidth toPlainText splitTextToSize title).
Local Abbreviation BreakRule := (BreakRule pageHeight).
Local Abbreviation placeBlock := (placeBlock pageHeight pageWidth title).
Local Abbreviation stampedFrom := (stampedFrom pageHeight pageWidth title).
Local Abbreviation footerNumberOp := (footerNumberOp pageHeight pageWidth).
Local Abbreviation FootersPending := (FootersPending pageHeight pageWidth).
Local Abbreviation OnOnePage := (OnOnePage pageHeight pageWidth title).

Lemma stamped_text (n : nat) (d : JsPDF.t) :
  text [JsString.of_nat n] (pageWidth - pageMargin) (pageHeight - 20) AlignRight
    (text [title] pageMargin (pageHeight - 20) AlignLeft
       (setTextColor (Gray 150) (setFontSize 9 (setFont Normal d))))
  = stamped n d.
Proof.
  unfold Pdf.stamped, text. simpl.
  rewrite list_alter_alter_eq. f_equal.
  apply list_alter_ext; [|reflexivity]. intros p _. simpl.
  now rewrite <- app_assoc.
Qed.

Lemma addFooter_run (n : nat) (s : Env) :
  addFooter n s = Ok (tt, {| doc := stamped n (doc s); yPos := yPos s |}).
Proof.
  unfold Pdf.addFooter. run_monad. now rewrite stamped_text.
Qed.

(** The question of a pair: measured in bold 12pt, then placed. *)
Lemma drawQuestion_run (qa : QAPair) (s : Env) :
  let qLines := splitTextToSize Bold 12 (q qa) contentWidth in
  drawQuestion qa s
  = Ok (tt, placeBlock qLines (len qLines * 14) 15
              {| doc := setTextColor (RGB 0 0 0)
                          (setFontSize 12 (setFont Bold (doc s)));
                 yPos := yPos s |}).
Proof.
  intros qLines. unfold Pdf.drawQuestion, Pdf.placeBlock, Pdf.bottomLimit.
  unfold doc_splitTextToSize. run_monad. fold qLines.
  destruct (Qgtb _ _); [|reflexivity].
  now rewrite stamped_text.
Qed.

(** The text of an answer: normalised, measured in normal 11pt, then
    placed. *)
Lemma renderMarkdown_run (t plain : JsString.t) (s : Env) :
  toPlainText t = Ok plain ->
  let splitText := splitTextToSize Normal 11 plain contentWidth in
  renderMarkdown t s
  = Ok (tt, placeBlock splitText (len splitText * 12) 10
              {| doc := setTextColor (RGB 50 50 50)
                          (setFontSize 11 (setFont Normal (doc s)));
                 yPos := yPos s |}).
Proof.
  intros Hplain splitText.
  unfold Pdf.renderMarkdown, Pdf.placeBlock, Pdf.bottomLimit.
  unfold mbind at 1, M_bind, raise. rewrite Hplain.
  unfold doc_splitTextToSize. run_monad. fold splitText.
  destruct (Qgtb _ _); [|reflexivity].
  now rewrite stamped_text.
Qed.

Lemma renderMarkdown_throw (t : JsString.t) (e : exn) (s : Env) :
  toPlainText t = Throw e -> renderMarkdown t s = Throw e.
Proof.
  intros H. unfold Pdf.renderMarkdown, mbind, M_bind, raise.
  now rewrite H.
Qed.

Lemma drawTitle_run (s : Env) :
  let titleLines := splitTextToSize Bold 24 title contentWidth in
  drawTitle s
  = Ok (tt, {| doc := text titleLines (pageWidth / 2) 80 AlignCenter
                       (setTextColor (RGB 0 0 0)
                          (setFontSize 24 (setFont Bold (doc s))));
               yPos := 80 + (len titleLines * 26 + 40) |}).
Proof. reflexivity. Qed.

Lemma pairSpacing_run (s : Env) :
  pairSpacing s = Ok (tt, {| doc := doc s; yPos := yPos s + 25 |}).
Proof. reflexivity. Qed.

(** *** Pages of the document under its operations *)

Lemma getNumberOfPages_text ls x y al (d : JsPDF.t) :
  getNumberOfPages (text ls x y al d) = getNumberOfPages d.
Proof. unfold getNumberOfPages, text. simpl. apply length_alter. Qed.

Lemma getNumberOfPages_stamped (n : nat) (d : JsPDF.t) :
  getNumberOfPages (stamped n d) = getNumberOfPages d.
Proof. unfold getNumberOfPages, Pdf.stamped. simpl. apply length_alter. Qed.

Lemma getNumberOfPages_addPage (d : JsPDF.t) :
  getNumberOfPages (addPage d) = S (getNumberOfPages d).
Proof.
  unfold getNumberOfPages, addPage. simpl. rewrite length_app. simpl. lia.
Qed.

Lemma getNumberOfPages_broken (s : Env) :
  getNumberOfPages (doc (broken s)) = S (getNumberOfPages (doc s)).
Proof.
  unfold Pdf.broken. cbn [doc].
  now rewrite getNumberOfPages_addPage, getNumberOfPages_stamped.
Qed.

Lemma current_broken (s : Env) :
  current (doc (broken s)) = S (getNumberOfPages (doc s)).
Proof.
  unfold Pdf.broken, addPage, getNumberOfPages. cbn [doc current].
  f_equal. unfold Pdf.stamped. simpl. apply length_alter.
Qed.

Lemma pages_broken (s : Env) :
  pages (doc (broken s))
  = alter (fun p => p ++ footer (getNumberOfPages (doc s)))
      (current (doc s) - 1)%nat (pages (doc s)) ++ [[]].
Proof. reflexivity. Qed.

(** A block drawn right after a break is alone on the new last page. *)
Lemma pages_text_broken ls x y al (s : Env) :
  pages (text ls x y al (doc (broken s)))
  = alter (fun p => p ++ footer (getNumberOfPages (doc s)))
      (current (doc s) - 1)%nat (pages (doc s))
    ++ [[mkTextOp ls x y al Normal 9 (Gray 150)]].
Proof.
  unfold text. cbn [pages]. rewrite current_broken, pages_broken.
  cbn [font fontSize textColor doc Pdf.broken addPage].
  replace (S (getNumberOfPages (doc s)) - 1)%nat
    with (length (alter (fun p => p ++ footer (getNumberOfPages (doc s)))
                    (current (doc s) - 1)%nat (pages (doc s))) + 0)%nat.
  - rewrite alter_app_r. reflexivity.
  - rewrite length_alter. unfold getNumberOfPages. lia.
Qed.

Lemma page_alter_eq (f : Page -> Page) (c : nat) (d d' : JsPDF.t) :
  (1 <= c <= getNumberOfPages d)%nat ->
  pages d' = alter f (c - 1)%nat (pages d) ->
  page c d' = f (page c d).
Proof.
  unfold getNumberOfPages, page. intros Hc ->.
  rewrite list_lookup_alter_eq.
  destruct (pages d !! (c - 1)%nat) as [p|] eqn:E; [reflexivity|].
  apply lookup_ge_None in E. lia.
Qed.

Lemma page_alter_ne (f : Page -> Page) (c i : nat) (d d' : JsPDF.t) :
  (1 <= c)%nat -> (1 <= i)%nat -> i <> c ->
  pages d' = alter f (c - 1)%nat (pages d) ->
  page i d' = page i d.
Proof.
  unfold page. intros Hc Hi Hne ->.
  rewrite list_lookup_alter_ne by lia. reflexivity.
Qed.

Lemma page_app_l (qs : list Page) (i : nat) (d d' : JsPDF.t) :
  (1 <= i <= getNumberOfPages d)%nat ->
  pages d' = pages d ++ qs ->
  page i d' = page i d.
Proof.
  unfold getNumberOfPages, page. intros Hi ->.
  rewrite lookup_app_l by lia. reflexivity.
Qed.

Lemma page_snoc (d : JsPDF.t) (ps : list Page) (p : Page) (n : nat) :
  pages d = ps ++ [p] -> length ps = n -> page (S n) d = p.
Proof.
  intros H <-. unfold page. rewrite H.
  rewrite (list_lookup_middle ps [] p) by lia. reflexivity.
Qed.

(** *** Placing a block *)

Lemma current_exists_text ls x y al (d : JsPDF.t) :
  current_exists d -> current_exists (text ls x y al d).
Proof.
  unfold current_exists. intros H.
  change (current (text ls x y al d)) with (current d).
  change (length (pages (text ls x y al d)))
    with (getNumberOfPages (text ls x y al d)).
  rewrite getNumberOfPages_text. exact H.
Qed.

Lemma current_exists_broken (s : Env) : current_exists (doc (broken s)).
Proof.
  unfold current_exists. rewrite current_broken.
  change (length (pages (doc (broken s))))
    with (getNumberOfPages (doc (broken s))).
  rewrite getNumberOfPages_broken. lia.
Qed.

Lemma lastDrawn_text ls x y al (d : JsPDF.t) :
  current_exists d ->
  lastDrawn (text ls x y al d)
  = Some (mkTextOp ls x y al (font d) (fontSize d) (textColor d)).
Proof.
  intros H. unfold lastDrawn.
  change (current (text ls x y al d)) with (current d).
  erewrite (page_alter_eq _ (current d) d); [|exact H|reflexivity].
  cbv beta. apply last_snoc.
Qed.

Lemma placeBlock_lastDrawn ls (h gap : Q) (s : Env) :
  current_exists (doc s) ->
  current_exists (doc (placeBlock ls h gap s))
  /\ exists op, lastDrawn (doc (placeBlock ls h gap s)) = Some op
                /\ op_lines op = ls.
Proof.
  intros Hc. unfold Pdf.placeBlock. cbn [doc].
  assert (H2 : current_exists
                 (doc (if Qgtb (yPos s + h) bottomLimit then broken s else s)))
    by (destruct (Qgtb _ _); [apply current_exists_broken|exact Hc]).
  split; [now apply current_exists_text|].
  eexists. split; [now apply lastDrawn_text|reflexivity].
Qed.

Lemma placeBlock_BreakRule ls (h gap : Q) (s s1 : Env) :
  pages (doc s1) = pages (doc s) ->
  current (doc s1) = current (doc s) ->
  yPos s1 = yPos s ->
  BreakRule ls h gap s (placeBlock ls h gap s1).
Proof.
  intros Hp Hc Hy.
  assert (Hn : getNumberOfPages (doc s1) = getNumberOfPages (doc s))
    by (unfold getNumberOfPages; now rewrite Hp).
  unfold Pdf.BreakRule. cbv zeta.
  match goal with
  | |- ?A /\ ?B /\ ?C /\ _ => enough (core : A /\ B /\ C)
  end.
  { destruct core as (Hiff & Hbreak & Hstay).
    split; [exact Hiff|]. split; [exact Hbreak|]. split; [exact Hstay|]. split.
    - intros E. apply Hstay. rewrite E. apply Qle_refl.
    - intros E. apply Hiff. rewrite E. lra. }
  unfold Pdf.placeBlock. rewrite Hy.
  destruct (Qgtb (yPos s + h) bottomLimit) eqn:E.
  - apply Qgtb_true in E. cbn [doc yPos].
    rewrite getNumberOfPages_text, getNumberOfPages_broken, Hn.
    split; [split; [reflexivity | intros _; exact E]|]. split.
    + intros _. split; [|split].
      * cbn [current text]. now rewrite current_broken, Hn.
      * eexists. split; [|split].
        -- eapply page_snoc.
           ++ rewrite pages_text_broken, Hp. reflexivity.
           ++ apply length_alter.
        -- reflexivity.
        -- reflexivity.
      * reflexivity.
    + intros L. exfalso. apply (Qlt_not_le _ _ E L).
  - apply Qgtb_false in E. cbn [doc yPos].
    rewrite getNumberOfPages_text, Hn. split; [|split].
    + split.
      * intros L. exfalso. apply (Qlt_not_le _ _ L E).
      * intros H. lia.
    + intros L. exfalso. apply (Qlt_not_le _ _ L E).
    + intros _. cbn [text current]. rewrite Hc, Hy. auto.
Qed.

Lemma placeBlock_OnOnePage ls (h gap : Q) (s s1 : Env) :
  pages (doc s1) = pages (doc s) ->
  current (doc s1) = current (doc s) ->
  yPos s1 = yPos s ->
  current_exists (doc s) ->
  h <= pageHeight - pageMargin * 2 ->
  OnOnePage ls h s (placeBlock ls h gap s1).
Proof.
  intros Hp Hc Hy Hcur Hh.
  assert (Hn : getNumberOfPages (doc s1) = getNumberOfPages (doc s))
    by (unfold getNumberOfPages; now rewrite Hp).
  assert (Hcur1 : current_exists (doc s1))
    by (unfold current_exists; now rewrite Hp, Hc).
  unfold Pdf.OnOnePage, Pdf.placeBlock. rewrite Hy.
  destruct (Qgtb (yPos s + h) bottomLimit) eqn:E.
  - apply Qgtb_true in E. cbn [doc yPos].
    exists (mkTextOp ls pageMargin pageMargin AlignLeft Normal 9 (Gray 150)).
    split; [reflexivity|]. split; [|split; [|split]].
    + apply (lastDrawn_text ls pageMargin pageMargin AlignLeft (doc (broken s1))).
      apply current_exists_broken.
    + cbn [op_y]. unfold Pdf.bottomLimit, pageMargin in *. lra.
    + intros _. cbn [op_y]. lra.
    + right. rewrite pages_text_broken, Hp, Hc, Hn. reflexivity.
  - apply Qgtb_false in E. cbn [doc yPos]. rewrite Hy.
    exists (mkTextOp ls pageMargin (yPos s) AlignLeft
              (font (doc s1)) (fontSize (doc s1)) (textColor (doc s1))).
    split; [reflexivity|]. split; [|split; [|split]].
    + now apply lastDrawn_text.
    + exact E.
    + intros L. exact L.
    + left. unfold text. cbn [pages]. rewrite Hp, Hc. reflexivity.
Qed.

(** *** Page breaks *)

(** C2, as amended: before every question block and every answer
    block a page break occurs if and only if cursor + block height is
    strictly greater than page height - bottom margin: a block that
    ends exactly on that limit triggers no break, one that exceeds it
    by a unit triggers one; on a break the page count grows by one and
    the block is drawn at the top margin of the new page, otherwise
    the page count and the cursor are those of the pending block.
    (The title block is drawn with no such decision.) *)
Theorem break_iff_overflow :
  (forall (qa : QAPair) (s : Env),
      let qLines := splitTextToSize Bold 12 (q qa) contentWidth in
      exists s', drawQuestion qa s = Ok (tt, s')
                 /\ BreakRule qLines (len qLines * 14) 15 s s')
  /\ (forall (t plain : JsString.t) (s : Env),
         toPlainText t = Ok plain ->
         let splitText := splitTextToSize Normal 11 plain contentWidth in
         exists s', renderMarkdown t s = Ok (tt, s')
                    /\ BreakRule splitText (len splitText * 12) 10 s s').
Proof.
  split.
  - intros qa s qLines. eexists. split; [apply drawQuestion_run|].
    apply placeBlock_BreakRule; reflexivity.
  - intros t plain s Hplain splitText. eexists.
    split; [exact (renderMarkdown_run t plain s Hplain)|].
    apply placeBlock_BreakRule; reflexivity.
Qed.

(** C3: a question block or an answer block whose height is at most
    the usable page height is never split: all its lines are one
    operation on one page, ending above the bottom limit, either
    appended to the current page or alone on a new last page. *)
Theorem block_never_split :
  (forall (qa : QAPair) (s : Env),
      let qLines := splitTextToSize Bold 12 (q qa) contentWidth in
      current_exists (doc s) ->
      len qLines * 14 <= pageHeight - pageMargin * 2 ->
      exists s', drawQuestion qa s = Ok (tt, s')
                 /\ OnOnePage qLines (len qLines * 14) s s')
  /\ (forall (t plain : JsString.t) (s : Env),
         toPlainText t = Ok plain ->
         let splitText := splitTextToSize Normal 11 plain contentWidth in
         current_exists (doc s) ->
         len splitText * 12 <= pageHeight - pageMargin * 2 ->
         exists s', renderMarkdown t s = Ok (tt, s')
                    /\ OnOnePage splitText (len splitText * 12) s s').
Proof.
  split.
  - intros qa s qLines Hc Hh. eexists. split; [apply drawQuestion_run|].
    apply placeBlock_OnOnePage; [reflexivity..|exact Hc|exact Hh].
  - intros t plain s Hplain splitText Hc Hh. eexists.
    split; [exact (renderMarkdown_run t plain s Hplain)|].
    apply placeBlock_OnOnePage; [reflexivity..|exact Hc|exact Hh].
Qed.

(** *** The title *)

(** C10: whatever the title and however many lines it wraps into, the
    heading is the one operation of page 1, drawn at the vertical
    offset 80; the document still has a single page with no footer on
    it, and the cursor is 80 + 26 per line + 40. *)
Theorem title_never_breaks :
  let titleLines := splitTextToSize Bold 24 title contentWidth in
  exists s',
    drawTitle (start) = Ok (tt, s')
    /\ pages (doc s')
       = [[mkTextOp titleLines (pageWidth / 2) 80 AlignCenter Bold 24 (RGB 0 0 0)]]
    /\ current (doc s') = 1%nat
    /\ pageNumberStamps (page 1 (doc s')) = []
    /\ yPos s' = 80 + (len titleLines * 26 + 40).
Proof.
  intros titleLines. eexists. split; [apply drawTitle_run|].
  repeat split.
Qed.

(** *** The cursor *)

Lemma bind_Ok {A B} (m : M A) (f : A -> M B) (s : Env) (r : B * Env) :
  (m ≫= f) s = Ok r -> exists x s1, m s = Ok (x, s1) /\ f x s1 = Ok r.
Proof.
  unfold mbind, M_bind. destruct (m s) as [[x s1]|e]; [|discriminate].
  intros H. now exists x, s1.
Qed.

Lemma placeBlock_cursor ls (h gap : Q) (s : Env) :
  0 <= h -> 0 <= gap -> pageMargin <= yPos s ->
  pageMargin <= yPos (placeBlock ls h gap s).
Proof.
  intros Hh Hg Hs. unfold Pdf.placeBlock.
  destruct (Qgtb _ _); cbn [yPos Pdf.broken]; lra.
Qed.

Lemma block_height_nonneg {A} (l : list A) (k : Q) : 0 <= k -> 0 <= len l * k.
Proof. intros Hk. apply Qmult_le_0_compat; [apply len_nonneg|exact Hk]. Qed.

Lemma drawQuestion_cursor (qa : QAPair) (s s' : Env) :
  pageMargin <= yPos s -> drawQuestion qa s = Ok (tt, s') ->
  pageMargin <= yPos s'.
Proof.
  intros Hs. rewrite drawQuestion_run. intros [= <-].
  apply placeBlock_cursor; [apply block_height_nonneg| |exact Hs]; lra.
Qed.

Lemma renderMarkdown_cursor (t : JsString.t) (s s' : Env) :
  pageMargin <= yPos s -> renderMarkdown t s = Ok (tt, s') ->
  pageMargin <= yPos s'.
Proof.
  intros Hs. destruct (toPlainText t) as [plain|e] eqn:E.
  - rewrite (renderMarkdown_run t plain s E). intros [= <-].
    apply placeBlock_cursor; [apply block_height_nonneg| |exact Hs]; lra.
  - now rewrite (renderMarkdown_throw t e s E).
Qed.

Lemma AfterAdvance_cursor (k : Advance) (s : Env) :
  AfterAdvance k s -> pageMargin <= yPos s.
Proof.
  induction 1 as [s H|qa s s' _ IH H|qa s s' _ IH H|t s s' _ IH H|s s' _ IH H].
  - rewrite drawTitle_run in H. injection H as <-. cbn [yPos].
    pose proof (block_height_nonneg
                  (splitTextToSize Bold 24 title contentWidth) 26).
    unfold pageMargin. lra.
  - now apply (drawQuestion_cursor qa s).
  - now apply (drawQuestion_cursor qa s).
  - now apply (renderMarkdown_cursor t s).
  - rewrite pairSpacing_run in H. injection H as <-. cbn [yPos]. lra.
Qed.

(** C6, as amended: immediately after every advance the cursor is at
    least the top margin. Nothing bounds it by page height - bottom
    margin and no advance checks it: drawing a question and spacing a
    pair never throw, and rendering an answer throws only when the
    normaliser does. *)
Theorem cursor_at_least_top_margin :
  (forall (k : Advance) (s : Env), AfterAdvance k s -> pageMargin <= yPos s)
  /\ (forall (qa : QAPair) (s : Env), exists s', drawQuestion qa s = Ok (tt, s'))
  /\ (forall (t plain : JsString.t) (s : Env),
         toPlainText t = Ok plain -> exists s', renderMarkdown t s = Ok (tt, s'))
  /\ (forall s : Env, exists s', pairSpacing s = Ok (tt, s')).
Proof.
  split; [exact AfterAdvance_cursor|]. split; [|split].
  - intros qa s. eexists. apply drawQuestion_run.
  - intros t plain s H. eexists. exact (renderMarkdown_run t plain s H).
  - intros s. eexists. apply pairSpacing_run.
Qed.

(** The states the export passes through are those of [AfterAdvance]:
    the content pass ends right after the advance of the title or of
    the last pair. *)
Lemma forEach_AfterAdvance (pairs : list QAPair) (k : Advance) (s s' : Env) :
  k = TitleAdvance \/ k = PairAdvance ->
  AfterAdvance k s ->
  forEach drawPair pairs s = Ok (tt, s') ->
  AfterAdvance (match pairs with [] => k | _ => PairAdvance end) s'.
Proof.
  revert k s. induction pairs as [|qa pairs IH]; intros k s Hk Hs H.
  - injection H as <-. exact Hs.
  - cbn [forEach] in H.
    apply bind_Ok in H as ([] & s3 & Hpair & Hrest).
    unfold Pdf.drawPair in Hpair.
    apply bind_Ok in Hpair as ([] & s1 & Hq & Hpair).
    apply bind_Ok in Hpair as ([] & s2 & Ha & Hsp).
    assert (H3 : AfterAdvance PairAdvance s3).
    { eapply after_pair; [|exact Hsp].
      eapply after_answer; [|exact Ha].
      destruct Hk as [-> | ->].
      - eapply after_first_question; eassumption.
      - eapply after_next_question; eassumption. }
    specialize (IH PairAdvance s3 (or_intror eq_refl) H3 Hrest).
    destruct pairs; exact IH.
Qed.

Lemma layoutContent_AfterAdvance (pairs : list QAPair) (s' : Env) :
  layoutContent pairs start = Ok (tt, s') ->
  AfterAdvance (match pairs with [] => TitleAdvance | _ => PairAdvance end) s'.
Proof.
  unfold Pdf.layoutContent. intros H.
  apply bind_Ok in H as ([] & s1 & Ht & Hrest).
  apply (forEach_AfterAdvance pairs TitleAdvance s1); auto.
  now apply after_title.
Qed.

(** *** Completion and failure of the export *)

Lemma stampPage_run (i : nat) (s : Env) :
  stampPage i s
  = Ok (tt, {| doc := stamped i (setPage i (doc s)); yPos := yPos s |}).
Proof.
  unfold Pdf.stampPage, mbind, M_bind, on_doc.
  now rewrite addFooter_run.
Qed.

Lemma for_count_run (from count : nat) (s : Env) :
  for_count from count stampPage s
  = Ok (tt, {| doc := stampedFrom from count (doc s); yPos := yPos s |}).
Proof.
  revert from s. induction count as [|count IH]; intros from s.
  - destruct s. reflexivity.
  - cbn [for_count Pdf.stampedFrom].
    unfold mbind, M_bind. rewrite stampPage_run, IH. reflexivity.
Qed.

Lemma stampFooters_run (s : Env) :
  stampFooters s
  = Ok (tt, {| doc := stampedFrom 1 (getNumberOfPages (doc s)) (doc s);
               yPos := yPos s |}).
Proof.
  unfold Pdf.stampFooters, mbind, M_bind, ask_doc.
  apply for_count_run.
Qed.

Lemma drawPair_Ok (qa : QAPair) (plain : JsString.t) (s : Env) :
  toPlainText (a qa) = Ok plain ->
  let qLines := splitTextToSize Bold 12 (q qa) contentWidth in
  let splitText := splitTextToSize Normal 11 plain contentWidth in
  let s1 := placeBlock qLines (len qLines * 14) 15
              {| doc := setTextColor (RGB 0 0 0)
                          (setFontSize 12 (setFont Bold (doc s)));
                 yPos := yPos s |} in
  let s2 := placeBlock splitText (len splitText * 12) 10
              {| doc := setTextColor (RGB 50 50 50)
                          (setFontSize 11 (setFont Normal (doc s1)));
                 yPos := yPos s1 |} in
  drawPair qa s = Ok (tt, {| doc := doc s2; yPos := yPos s2 + 25 |}).
Proof.
  intros Hplain qLines splitText s1 s2. unfold Pdf.drawPair.
  unfold mbind at 1, M_bind. rewrite drawQuestion_run. fold qLines s1.
  unfold mbind at 1, M_bind.
  rewrite (renderMarkdown_run (a qa) plain s1 Hplain). reflexivity.
Qed.

Lemma drawPair_Throw (qa : QAPair) (e : exn) (s : Env) :
  toPlainText (a qa) = Throw e -> drawPair qa s = Throw e.
Proof.
  intros H. unfold Pdf.drawPair.
  unfold mbind at 1, M_bind. rewrite drawQuestion_run.
  unfold mbind at 1, M_bind. now rewrite (renderMarkdown_throw (a qa) e).
Qed.

Lemma forEach_Ok (pairs : list QAPair) (s : Env) :
  (forall qa, In qa pairs -> exists plain, toPlainText (a qa) = Ok plain) ->
  exists s', forEach drawPair pairs s = Ok (tt, s').
Proof.
  revert s. induction pairs as [|qa pairs IH]; intros s H.
  - now exists s.
  - destruct (H qa (or_introl eq_refl)) as [plain Hplain].
    cbn [forEach]. unfold mbind at 1, M_bind.
    rewrite (drawPair_Ok qa plain s Hplain).
    apply IH. intros qa' Hin. apply H. now right.
Qed.

Lemma forEach_Throw (pairs : list QAPair) (s : Env) :
  (exists qa e, In qa pairs /\ toPlainText (a qa) = Throw e) ->
  exists e', forEach drawPair pairs s = Throw e'.
Proof.
  revert s. induction pairs as [|qa pairs IH]; intros s (qa' & e & Hin & He).
  - destruct Hin.
  - cbn [forEach]. unfold mbind at 1, M_bind.
    destruct (toPlainText (a qa)) as [plain|e0] eqn:E.
    + rewrite (drawPair_Ok qa plain s E).
      apply IH. exists qa', e. split; [|exact He].
      destruct Hin as [<- | Hin]; [congruence | exact Hin].
    + exists e0. now rewrite (drawPair_Throw qa e0 s E).
Qed.

(** The export completes when the normaliser accepts every answer. *)
Lemma compose_Ok (pairs : list QAPair) :
  (forall qa, In qa pairs -> exists plain, toPlainText (a qa) = Ok plain) ->
  exists s, compose pairs = Ok (tt, s).
Proof.
  intros H. unfold Pdf.compose.
  unfold mbind at 1, M_bind. unfold Pdf.layoutContent.
  unfold mbind at 1, M_bind. rewrite drawTitle_run.
  match goal with
  | |- context [forEach _ _ ?s1] => destruct (forEach_Ok pairs s1 H) as [s' ->]
  end.
  rewrite stampFooters_run. eauto.
Qed.

(** The export throws when the normaliser rejects some answer. *)
Lemma compose_Throw (pairs : list QAPair) :
  (exists qa e, In qa pairs /\ toPlainText (a qa) = Throw e) ->
  exists e', compose pairs = Throw e'.
Proof.
  intros H. unfold Pdf.compose.
  unfold mbind at 1, M_bind. unfold Pdf.layoutContent.
  unfold mbind at 1, M_bind. rewrite drawTitle_run.
  match goal with
  | |- context [forEach _ _ ?s1] => destruct (forEach_Throw pairs s1 H) as [e' ->]
  end.
  eauto.
Qed.

(** *** Footers *)

Lemma pageNumberStamps_app (p1 p2 : Page) :
  pageNumberStamps (p1 ++ p2) = pageNumberStamps p1 ++ pageNumberStamps p2.
Proof. apply filter_app. Qed.

Lemma pageNumberStamps_footer (n : nat) :
  pageNumberStamps (footer n) = [footerNumberOp n].
Proof. reflexivity. Qed.

Lemma FootersPending_text ls x y (d : JsPDF.t) :
  FootersPending d -> FootersPending (text ls x y AlignLeft d).
Proof.
  intros [[Hlen Hcur] Hst]. split.
  - split; unfold text; cbn [pages current]; rewrite ?length_alter; auto.
  - intros i Hi. rewrite getNumberOfPages_text in *.
    destruct (decide (i = current d)) as [->|Hne].
    + erewrite (page_alter_eq _ (current d) d);
        [|unfold getNumberOfPages; lia|reflexivity].
      cbv beta. rewrite pageNumberStamps_app, Hst by (unfold getNumberOfPages; lia).
      rewrite app_nil_r. unfold getNumberOfPages.
      now destruct (decide (current d = length (pages d))).
    + erewrite (page_alter_ne _ (current d) i d);
        [now apply Hst|lia|lia|exact Hne|reflexivity].
Qed.

Lemma FootersPending_broken (s : Env) :
  FootersPending (doc s) -> FootersPending (doc (broken s)).
Proof.
  intros [[Hlen Hcur] Hst].
  pose proof (getNumberOfPages_broken s) as Hn.
  split.
  - split; [unfold getNumberOfPages in Hn; lia|].
    rewrite current_broken. unfold getNumberOfPages in *. lia.
  - intros i Hi. rewrite Hn in *.
    destruct (decide (i = S (getNumberOfPages (doc s)))) as [->|Hlast].
    + rewrite (page_snoc (doc (broken s)) _ [] (getNumberOfPages (doc s))
                 (pages_broken s)); [reflexivity|apply length_alter].
    + rewrite (page_app_l [[]] i (stamped (getNumberOfPages (doc s)) (doc s)))
        by (rewrite ?getNumberOfPages_stamped; try reflexivity; lia).
      destruct (decide (i = current (doc s))) as [->|Hne].
      * erewrite (page_alter_eq _ (current (doc s)) (doc s));
          [|unfold getNumberOfPages; lia|reflexivity].
        cbv beta. rewrite pageNumberStamps_app, pageNumberStamps_footer.
        rewrite Hst by (unfold getNumberOfPages; lia).
        unfold getNumberOfPages. rewrite <- Hcur.
        now destruct (decide (current (doc s) = current (doc s))).
      * erewrite (page_alter_ne _ (current (doc s)) i (doc s));
          [|lia|lia|exact Hne|reflexivity].
        rewrite Hst by lia.
        destruct (decide (i = getNumberOfPages (doc s))) as [E|_]; [|reflexivity].
        unfold getNumberOfPages in E. congruence.
Qed.

Lemma FootersPending_placeBlock ls (h gap : Q) (s : Env) :
  FootersPending (doc s) -> FootersPending (doc (placeBlock ls h gap s)).
Proof.
  intros H. unfold Pdf.placeBlock. cbn [doc].
  apply FootersPending_text.
  destruct (Qgtb _ _); [now apply FootersPending_broken|exact H].
Qed.

Lemma FootersPending_drawQuestion (qa : QAPair) (s s' : Env) :
  FootersPending (doc s) -> drawQuestion qa s = Ok (tt, s') ->
  FootersPending (doc s').
Proof.
  intros H. rewrite drawQuestion_run. intros [= <-].
  apply FootersPending_placeBlock. exact H.
Qed.

Lemma FootersPending_renderMarkdown (t : JsString.t) (s s' : Env) :
  FootersPending (doc s) -> renderMarkdown t s = Ok (tt, s') ->
  FootersPending (doc s').
Proof.
  intros H. destruct (toPlainText t) as [plain|e] eqn:E.
  - rewrite (renderMarkdown_run t plain s E). intros [= <-].
    apply FootersPending_placeBlock. exact H.
  - now rewrite (renderMarkdown_throw t e s E).
Qed.

Lemma FootersPending_drawPair (qa : QAPair) (s s' : Env) :
  FootersPending (doc s) -> drawPair qa s = Ok (tt, s') ->
  FootersPending (doc s').
Proof.
  intros H Hrun. unfold Pdf.drawPair in Hrun.
  apply bind_Ok in Hrun as ([] & s1 & Hq & Hrun).
  apply bind_Ok in Hrun as ([] & s2 & Ha & Hsp).
  rewrite pairSpacing_run in Hsp. injection Hsp as <-. cbn [doc].
  apply (FootersPending_renderMarkdown (a qa) s1); [|exact Ha].
  now apply (FootersPending_drawQuestion qa s).
Qed.

Lemma FootersPending_forEach (pairs : list QAPair) (s s' : Env) :
  FootersPending (doc s) -> forEach drawPair pairs s = Ok (tt, s') ->
  FootersPending (doc s').
Proof.
  revert s. induction pairs as [|qa pairs IH]; intros s H Hrun.
  - now injection Hrun as <-.
  - cbn [forEach] in Hrun. apply bind_Ok in Hrun as ([] & s1 & Hqa & Hrest).
    apply (IH s1); [|exact Hrest].
    now apply (FootersPending_drawPair qa s).
Qed.

Lemma FootersPending_layoutContent (pairs : list QAPair) (s' : Env) :
  layoutContent pairs start = Ok (tt, s') -> FootersPending (doc s').
Proof.
  unfold Pdf.layoutContent. intros H.
  apply bind_Ok in H as ([] & s1 & Ht & Hrest).
  apply (FootersPending_forEach pairs s1); [|exact Hrest].
  rewrite drawTitle_run in Ht. injection Ht as <-. cbn [doc].
  split; [split; simpl; lia|].
  intros i Hi. change (getNumberOfPages _) with 1%nat in *.
  assert (i = 1%nat) as -> by lia. reflexivity.
Qed.

(** The footer pass adds one footer to each page it visits and leaves
    the other pages as they are. *)
Lemma stampedFrom_pages (count from : nat) (d : JsPDF.t) :
  (1 <= from)%nat -> (from + count <= S (getNumberOfPages d))%nat ->
  getNumberOfPages (stampedFrom from count d) = getNumberOfPages d
  /\ forall i : nat,
      (1 <= i)%nat ->
      page i (stampedFrom from count d)
      = page i d ++ (if decide (from <= i < from + count)%nat
                     then footer i else []).
Proof.
  revert from d. induction count as [|count IH]; intros from d Hfrom Hend.
  - split; [reflexivity|]. intros i Hi. cbn [Pdf.stampedFrom].
    destruct (decide _); [lia|]. now rewrite app_nil_r.
  - cbn [Pdf.stampedFrom].
    assert (Hset : setPage from d
                   = {| pages := pages d; current := from; font := font d;
                        fontSize := fontSize d; textColor := textColor d |}).
    { unfold setPage, getNumberOfPages in *.
      destruct (0 <? from)%nat eqn:E1; [|apply Nat.ltb_ge in E1; lia].
      destruct (from <=? length (pages d))%nat eqn:E2;
        [reflexivity|apply Nat.leb_gt in E2; lia]. }
    rewrite Hset.
    set (d1 := stamped from _).
    assert (Hn1 : getNumberOfPages d1 = getNumberOfPages d)
      by (unfold d1; now rewrite getNumberOfPages_stamped).
    destruct (IH (S from) d1) as [Hn Hpages]; [lia|rewrite Hn1; lia|].
    split; [now rewrite Hn|].
    intros i Hi. rewrite Hpages by exact Hi.
    destruct (decide (i = from)) as [->|Hne].
    + unfold d1.
      erewrite (page_alter_eq _ from d);
        [|lia|reflexivity]. cbv beta.
      destruct (decide (S from <= from < S from + count)%nat); [lia|].
      destruct (decide (from <= from < from + S count)%nat); [|lia].
      now rewrite app_nil_r.
    + unfold d1.
      erewrite (page_alter_ne _ from i d); [|lia|lia|exact Hne|reflexivity].
      destruct (decide (S from <= i < S from + count)%nat),
               (decide (from <= i < from + S count)%nat);
        try reflexivity; lia.
Qed.

(** X5: What the export does about footers: when it completes, every page
    before the last carries two footers with its number, the one
    stamped when the page was left and the one of the footer pass, and
    the last page carries one. *)
Theorem footers_after_compose (pairs : list QAPair) (s : Env) :
  compose pairs = Ok (tt, s) ->
  forall i : nat,
    (1 <= i <= getNumberOfPages (doc s))%nat ->
    pageNumberStamps (page i (doc s))
    = if decide (i = getNumberOfPages (doc s))
      then [footerNumberOp i]
      else [footerNumberOp i; footerNumberOp i].
Proof.
  unfold Pdf.compose. intros H.
  apply bind_Ok in H as ([] & s1 & Hcontent & Hstamp).
  apply FootersPending_layoutContent in Hcontent as [[Hlen Hcur] Hst].
  rewrite stampFooters_run in Hstamp. injection Hstamp as <-. cbn [doc].
  destruct (stampedFrom_pages (getNumberOfPages (doc s1)) 1 (doc s1))
    as [Hn Hpages]; [lia|lia|].
  rewrite Hn. intros i Hi.
  rewrite Hpages, pageNumberStamps_app, Hst by lia.
  destruct (decide (1 <= i < 1 + getNumberOfPages (doc s1))%nat); [|lia].
  rewrite pageNumberStamps_footer.
  now destruct (decide (i = getNumberOfPages (doc s1))).
Qed.

(** A side effect of stamping a footer during the content pass: the
    footer leaves its font, size and colour in the document, and the
    question that caused the break is drawn with them on the new page
    instead of bold 12pt black. *)
Lemma question_after_break_in_footer_font (qa : QAPair) (s : Env) :
  let qLines := splitTextToSize Bold 12 (q qa) contentWidth in
  bottomLimit < yPos s + len qLines * 14 ->
  exists s',
    drawQuestion qa s = Ok (tt, s')
    /\ lastDrawn (doc s')
       = Some (mkTextOp qLines pageMargin pageMargin AlignLeft Normal 9 (Gray 150)).
Proof.
  intros qLines Hover. eexists. split; [apply drawQuestion_run|].
  fold qLines. unfold Pdf.placeBlock. cbn [yPos].
  apply Qgtb_true in Hover. rewrite Hover. cbn [doc].
  rewrite lastDrawn_text by apply current_exists_broken. reflexivity.
Qed.

(** *** The block drawn last *)

(** A pair whose answer is empty: when the normaliser returns the
    empty text for it, the pair is drawn like any other, and its
    answer block, the lines the empty text wraps into, is the last
    operation on the current page. *)
Lemma drawPair_empty_answer (qa : QAPair) (s : Env) :
  toPlainText [] = Ok [] ->
  a qa = [] ->
  current_exists (doc s) ->
  exists s' op,
    drawPair qa s = Ok (tt, s')
    /\ lastDrawn (doc s') = Some op
    /\ op_lines op = splitTextToSize Normal 11 [] contentWidth.
Proof.
  intros Hplain Ha Hc. rewrite <- Ha in Hplain at 1.
  pose (s1 := placeBlock (splitTextToSize Bold 12 (q qa) contentWidth)
                (len (splitTextToSize Bold 12 (q qa) contentWidth) * 14) 15
                {| doc := setTextColor (RGB 0 0 0)
                            (setFontSize 12 (setFont Bold (doc s)));
                   yPos := yPos s |}).
  assert (H1 : current_exists (doc s1))
    by (apply placeBlock_lastDrawn; exact Hc).
  pose (s2 := placeBlock (splitTextToSize Normal 11 [] contentWidth)
                (len (splitTextToSize Normal 11 [] contentWidth) * 12) 10
                {| doc := setTextColor (RGB 50 50 50)
                            (setFontSize 11 (setFont Normal (doc s1)));
                   yPos := yPos s1 |}).
  destruct (placeBlock_lastDrawn (splitTextToSize Normal 11 [] contentWidth)
              (len (splitTextToSize Normal 11 [] contentWidth) * 12) 10
              {| doc := setTextColor (RGB 50 50 50)
                          (setFontSize 11 (setFont Normal (doc s1)));
                 yPos := yPos s1 |}) as [_ (op & Hop & Hls)]; [exact H1|].
  exists {| doc := doc s2; yPos := yPos s2 + 25 |}, op.
  split; [exact (drawPair_Ok qa [] s Hplain)|].
  split; [exact Hop|exact Hls].
Qed.

End Layout.

(** ** The export as the application sees it *)

Section Handler.

Variables pageHeight pageWidth : Q.
Variable toPlainText : JsString.t -> Result JsString.t.
Variable splitTextToSize :
  FontStyle -> Z -> JsString.t -> Q -> list JsString.t.
Variable toLowerCase : JsString.t -> JsString.t.

Local Abbreviation handlePdfExport :=
  (handlePdfExport pageHeight pageWidth toPlainText splitTextToSize toLowerCase).
Local Abbreviation compose :=
  (compose pageHeight pageWidth toPlainText splitTextToSize).
Local Abbreviation drawPair :=
  (drawPair pageHeight pageWidth toPlainText splitTextToSize).
Local Abbreviation layoutContent :=
  (layoutContent pageHeight pageWidth toPlainText splitTextToSize).
Local Abbreviation stampFooters := (stampFooters pageHeight pageWidth).

(** C4, as amended: on an empty transcript the export returns at once;
    it throws nothing, saves nothing and leaves the application as it
    was. *)
Theorem empty_transcript_returns_silently :
  forall (title : JsString.t) (files : list (JsString.t * JsPDF.t)),
    handlePdfExport (mkApp title [] files) = (mkApp title [] files, None).
Proof. reflexivity. Qed.

(** C7: when a step of the export throws, here the normaliser on the
    answer of some pair, the exception leaves [handlePdfExport], no
    file is saved and the application is as it was. *)
Theorem throw_saves_nothing :
  forall (app : App) (qa : QAPair) (e : exn),
    In qa (qaPairs app) ->
    toPlainText (a qa) = Throw e ->
    exists e', handlePdfExport app = (app, Some e').
Proof.
  intros app qa e Hin He. unfold Pdf.handlePdfExport.
  destruct (compose_Throw pageHeight pageWidth toPlainText splitTextToSize
              (chatTitle app) (qaPairs app)) as [e' He'].
  { now exists qa, e. }
  rewrite He'. exists e'. destruct (qaPairs app); [destruct Hin|reflexivity].
Qed.



(** C9: a pair whose answer is the empty string is exported with an
    empty answer block, the lines the measurer makes of the empty
    text, drawn after its question; and such pairs never make the
    export fail: it completes whenever the normaliser accepts the
    answers that are not empty. (The normaliser is taken to return
    the empty text for the empty string.) *)
Theorem empty_answer_exported :
  toPlainText [] = Ok [] ->
  (forall (title : JsString.t) (qa : QAPair) (s : Env),
      a qa = [] ->
      current_exists (doc s) ->
      exists s' op,
        drawPair title qa s = Ok (tt, s')
        /\ lastDrawn (doc s') = Some op
        /\ op_lines op = splitTextToSize Normal 11 [] (contentWidth pageWidth))
  /\ (forall app : App,
         (forall qa, In qa (qaPairs app) -> a qa <> [] ->
                     exists plain, toPlainText (a qa) = Ok plain) ->
         snd (handlePdfExport app) = None
         /\ (qaPairs app <> [] ->
             exists d, downloads (fst (handlePdfExport app))
                       = downloads app ++ [(fileName toLowerCase (chatTitle app), d)])).
Proof.
  intros Hempty. split.
  - intros title qa s Ha Hc. now apply drawPair_empty_answer.
  - intros app Hother. unfold Pdf.handlePdfExport.
    destruct (compose_Ok pageHeight pageWidth toPlainText splitTextToSize
                (chatTitle app) (qaPairs app)) as [s Hs].
    { intros qa Hin. destruct (decide (a qa = [])) as [Ha|Ha].
      - exists []. now rewrite Ha.
      - now apply Hother. }
    rewrite Hs. destruct (qaPairs app) as [|qa pairs]; cbn [fst snd downloads].
    + split; [reflexivity|]. intros H. now destruct H.
    + split; [reflexivity|]. intros _. now exists (doc s).
Qed.

End Handler.

(** ** The properties at the concrete instance *)

Section AtSample.

Local Open Scope Q_scope.

Local Abbreviation a4h := Sample.a4_height.
Local Abbreviation a4w := Sample.a4_width.

(** C1 at the transcript [Sample.longQuestion] under the title "T": the
    export completes with two pages and page 1 carries two footers,
    the one stamped when the answer moved to page 2 and the one of the
    footer pass; page 2 carries one. *)
Theorem footer_stamped_twice_on_left_page :
  exists s,
    Sample.run (JsString.lit "T") Sample.longQuestion = Ok (tt, s)
    /\ getNumberOfPages (doc s) = 2%nat
    /\ pageNumberStamps (page 1 (doc s))
       = [footerNumberOp a4h a4w 1; footerNumberOp a4h a4w 1]
    /\ drop 2 (page 1 (doc s))
       = footer a4h a4w (JsString.lit "T") 1 ++ footer a4h a4w (JsString.lit "T") 1
    /\ pageNumberStamps (page 2 (doc s)) = [footerNumberOp a4h a4w 2].
Proof. eexists. split; [vm_compute; reflexivity|]. vm_compute. auto. Qed.

(** The scenario of the design document: one short question with a
    one-line answer gives a single page holding the title, the
    question, the answer and one footer with the page number 1. *)
Example single_page_scenario :
  exists s,
    Sample.run (JsString.lit "What is 2+2?")
      [mkQA (JsString.lit "What is 2+2?") (JsString.lit "4")] = Ok (tt, s)
    /\ getNumberOfPages (doc s) = 1%nat
    /\ List.map op_lines (page 1 (doc s))
       = [[JsString.lit "What is 2+2?"]; [JsString.lit "What is 2+2?"];
          [JsString.lit "4"]; [JsString.lit "What is 2+2?"]; [JsString.lit "1"]]
    /\ List.map op_y (page 1 (doc s)) = [80; 146; 175; 821.89; 821.89].
Proof. eexists. split; [vm_compute; reflexivity|]. vm_compute. auto. Qed.

(** C2, for the title block: a title of 28 lines is pending at the
    cursor 80 with a height of 728, which passes the bottom limit of
    791.89, and no page is added: the rule of the question and answer
    blocks does not hold of it. *)
Lemma title_overflows_without_break :
  let titleLines := Sample.split Bold 24 (Sample.tall 28) (contentWidth a4w) in
  exists s',
    drawTitle a4w Sample.split (Sample.tall 28) start = Ok (tt, s')
    /\ bottomLimit a4h < 80 + len titleLines * 26
    /\ getNumberOfPages (doc s') = getNumberOfPages (doc start)
    /\ ~ BreakRule a4h titleLines (len titleLines * 26) 40
           {| doc := doc start; yPos := 80 |} s'.
Proof.
  intros titleLines. eexists. split; [apply drawTitle_run|].
  split; [vm_compute; reflexivity|]. split; [reflexivity|].
  intros ([Hbreak _] & _).
  assert (H : bottomLimit a4h < 80 + len titleLines * 26)
    by (vm_compute; reflexivity).
  apply Hbreak in H. vm_compute in H. discriminate H.
Qed.

Lemma break_iff_overflow_witness :
  Sample.plain (JsString.lit "A") = Ok (JsString.lit "A")
  /\ exists s',
      renderMarkdown a4h a4w Sample.plain Sample.split (JsString.lit "T")
        (JsString.lit "A") start = Ok (tt, s')
      /\ BreakRule a4h
           (Sample.split Normal 11 (JsString.lit "A") (contentWidth a4w))
           (len (Sample.split Normal 11 (JsString.lit "A") (contentWidth a4w)) * 12)
           10 start s'.
Proof.
  split; [reflexivity|].
  exact (proj2 (break_iff_overflow a4h a4w Sample.plain Sample.split
                  (JsString.lit "T"))
           (JsString.lit "A") (JsString.lit "A") start eq_refl).
Defined.

Lemma block_never_split_witness :
  current_exists (doc start)
  /\ len (Sample.split Bold 12 (Sample.tall 46) (contentWidth a4w)) * 14
     <= a4h - pageMargin * 2
  /\ exists s',
      drawQuestion a4h a4w Sample.split (JsString.lit "T")
        (mkQA (Sample.tall 46) (JsString.lit "A")) start = Ok (tt, s')
      /\ OnOnePage a4h a4w (JsString.lit "T")
           (Sample.split Bold 12 (Sample.tall 46) (contentWidth a4w))
           (len (Sample.split Bold 12 (Sample.tall 46) (contentWidth a4w)) * 14)
           start s'.
Proof.
  assert (Hc : current_exists (doc start)) by (vm_compute; lia).
  assert (Hh : len (Sample.split Bold 12 (Sample.tall 46) (contentWidth a4w)) * 14
               <= a4h - pageMargin * 2) by (vm_compute; discriminate).
  split; [exact Hc|]. split; [exact Hh|].
  exact (proj1 (block_never_split a4h a4w Sample.plain Sample.split
                  (JsString.lit "T"))
           (mkQA (Sample.tall 46) (JsString.lit "A")) start Hc Hh).
Defined.

(** C4, as the design document has it: the export of an empty
    transcript does not end in an exception. *)
Lemma empty_transcript_no_error :
  ~ exists e : exn,
      snd (Sample.export (mkApp (JsString.lit "T") [] [])) = Some e.
Proof. intros [e H]. discriminate H. Qed.

(** C6, as the design document has it: under the title "T" the
    46-line question of [Sample.longQuestion] fits on page 1, and the
    advance after it leaves the cursor at 805, below the bottom limit
    of 791.89; the export goes on and saves its file. *)
Lemma cursor_passes_bottom_limit_unnoticed :
  exists s,
    AfterAdvance a4h a4w Sample.plain Sample.split (JsString.lit "T")
      QuestionAdvance s
    /\ bottomLimit a4h < yPos s
    /\ exists d,
        Sample.export (mkApp (JsString.lit "T") Sample.longQuestion [])
        = (mkApp (JsString.lit "T") Sample.longQuestion [(JsString.lit "t.pdf", d)],
           None).
Proof.
  eexists. split; [|split].
  - eapply (after_first_question _ _ _ _ _
              (mkQA (Sample.tall 46) (JsString.lit "A"))).
    + apply after_title. apply drawTitle_run.
    + apply drawQuestion_run.
  - vm_compute. reflexivity.
  - eexists. vm_compute. reflexivity.
Qed.

Lemma cursor_at_least_top_margin_witness :
  exists s,
    AfterAdvance a4h a4w Sample.plain Sample.split (JsString.lit "T")
      TitleAdvance s
    /\ pageMargin <= yPos s.
Proof.
  eexists.
  assert (H : AfterAdvance a4h a4w Sample.plain Sample.split (JsString.lit "T")
                TitleAdvance _)
    by (apply after_title; apply drawTitle_run).
  split; [exact H|].
  exact (proj1 (cursor_at_least_top_margin a4h a4w Sample.plain Sample.split
                  (JsString.lit "T")) TitleAdvance _ H).
Defined.

Lemma throw_saves_nothing_witness :
  let app := mkApp (JsString.lit "T") Sample.rejectedAnswer [] in
  In (mkQA (JsString.lit "Q") [0%N]) (qaPairs app)
  /\ (exists e, Sample.plain_or_throw [0%N] = Throw e)
  /\ exists e',
      handlePdfExport a4h a4w Sample.plain_or_throw Sample.split Sample.lower app
      = (app, Some e').
Proof.
  intros app. split; [left; reflexivity|]. split; [eexists; reflexivity|].
  apply (throw_saves_nothing a4h a4w Sample.plain_or_throw Sample.split
           Sample.lower app (mkQA (JsString.lit "Q") [0%N])
           (JsError (JsString.lit
              "marked(): input parameter is undefined or null"))).
  - left. reflexivity.
  - reflexivity.
Defined.

Lemma empty_answer_exported_witness :
  Sample.plain [] = Ok []
  /\ snd (Sample.export (mkApp (JsString.lit "T") Sample.pendingAnswer [])) = None.
Proof.
  split; [reflexivity|].
  apply (proj2 (empty_answer_exported a4h a4w Sample.plain Sample.split
                  Sample.lower eq_refl)
           (mkApp (JsString.lit "T") Sample.pendingAnswer [])).
  intros qa _ _. now exists (a qa).
Defined.

End AtSample.

(** ** The chat component *)

Section ChatHandlers.

Import Chat.

(** *** Trimming *)

Lemma trimStart_head (s : JsString.t) (c : JsString.code_unit) :
  head (trimStart s) = Some c -> is_space c = false.
Proof.
  induction s as [|c0 s IH]; [discriminate|]. cbn [trimStart].
  destruct (is_space c0) eqn:E; [exact IH|].
  intros [= <-]. exact E.
Qed.

Lemma trimStart_last (s : JsString.t) (c : JsString.code_unit) :
  last (trimStart s) = Some c -> last s = Some c.
Proof.
  induction s as [|c0 s IH]; [discriminate|]. cbn [trimStart].
  destruct (is_space c0); [|auto]. intros H.
  specialize (IH H). destruct s as [|c1 s]; [discriminate IH|].
  now rewrite last_cons_cons.
Qed.

Lemma trimStart_fixed (s : JsString.t) :
  (forall c, head s = Some c -> is_space c = false) -> trimStart s = s.
Proof.
  destruct s as [|c s]; [reflexivity|]. intros H. cbn [trimStart].
  now rewrite (H c eq_refl).
Qed.

Lemma trim_Trimmed (s : JsString.t) : Trimmed (trim s).
Proof.
  unfold Trimmed, trim, trimEnd. split; intros c.
  - rewrite head_reverse. intros H. apply trimStart_last in H.
    rewrite last_reverse in H. now apply trimStart_head in H.
  - rewrite last_reverse. apply trimStart_head.
Qed.

Lemma Trimmed_trim (s : JsString.t) : Trimmed s -> trim s = s.
Proof.
  intros [Hhead Hlast]. unfold trim, trimEnd.
  rewrite (trimStart_fixed s Hhead).
  rewrite trimStart_fixed; [apply reverse_involutive|].
  intros c. rewrite head_reverse. apply Hlast.
Qed.

Lemma length_eqb_0 {A} (l : list A) : Nat.eqb (length l) 0 = true <-> l = [].
Proof. destruct l; simpl; split; congruence. Qed.

(** *** The title of a chat *)

(** X10: The title made of a first question is never longer than 43 code
    units; it is the question itself when that has at most 40, and it
    always starts with the first 40 code units of the question. *)
Theorem deriveTitle_bounds (currentQuestion : JsString.t) :
  (length (deriveTitle currentQuestion) <= 43)%nat
  /\ ((length currentQuestion <= 40)%nat ->
      deriveTitle currentQuestion = currentQuestion)
  /\ take 40 (deriveTitle currentQuestion) = take 40 currentQuestion.
Proof.
  unfold deriveTitle. split; [|split].
  - rewrite length_app, length_take.
    destruct (40 <? length currentQuestion)%nat;
      [change (length (JsString.lit "...")) with 3%nat|cbn [length]]; lia.
  - intros H. destruct (40 <? length currentQuestion)%nat eqn:E.
    + apply Nat.ltb_lt in E. lia.
    + rewrite app_nil_r. now apply take_ge.
  - destruct (40 <? length currentQuestion)%nat eqn:E.
    + apply Nat.ltb_lt in E. rewrite take_app_le by (rewrite length_take; lia).
      apply take_take.
    + rewrite app_nil_r. apply take_take.
Qed.

Lemma deriveTitle_nonempty (s : JsString.t) : s <> [] -> deriveTitle s <> [].
Proof. destruct s; [congruence|]. discriminate. Qed.

(** *** Submitting a question *)

(** X11: [handleSubmit] does nothing exactly when the Ask button is
    disabled (a blank question, or a request under way); otherwise it
    sends the trimmed question, which is not empty. *)
Theorem submit_guard_is_ask_disabled (v : View) :
  (askDisabled v = true <-> handleSubmit_begin v = (v, None))
  /\ (askDisabled v = false ->
      snd (handleSubmit_begin v) = Some (trim (question v))
      /\ trim (question v) <> []).
Proof.
  unfold askDisabled, handleSubmit_begin.
  destruct (isLoading v), (Nat.eqb (length (trim (question v))) 0) eqn:E;
    cbn [orb snd];
    (split; [split; intros H; try reflexivity; discriminate H
            |intros H; try discriminate H]).
  split; [reflexivity|]. intros Hempty. rewrite Hempty in E. discriminate E.
Qed.

Lemma setLastAnswer_snoc (answer : JsString.t) (pairs : list QAPair) (qa : QAPair) :
  setLastAnswer answer (pairs ++ [qa]) = Ok (pairs ++ [mkQA (q qa) answer]).
Proof.
  unfold setLastAnswer. rewrite length_app. cbn [length].
  replace (length pairs + 1 - 1)%nat with (length pairs + 0)%nat by lia.
  rewrite lookup_app_r by lia.
  replace (length pairs + 0 - length pairs)%nat with 0%nat by lia.
  cbn [lookup list_lookup]. now rewrite insert_app_r.
Qed.

(** X13: The updater of [setQaPairs] replaces the answer of the last pair
    and nothing else: the transcript keeps its length, its questions
    and every answer but the last. *)
Theorem setLastAnswer_only_last_answer
    (answer : JsString.t) (prevPairs updatedPairs : list QAPair) :
  setLastAnswer answer prevPairs = Ok updatedPairs ->
  length updatedPairs = length prevPairs
  /\ List.map q updatedPairs = List.map q prevPairs
  /\ (exists qa, last updatedPairs = Some qa /\ a qa = answer)
  /\ forall i : nat,
      (S i < length prevPairs)%nat -> updatedPairs !! i = prevPairs !! i.
Proof.
  destruct (decide (prevPairs = [])) as [->|Hne]; [discriminate|].
  destruct (exists_last Hne) as (pairs & qa & ->).
  rewrite setLastAnswer_snoc. intros [= <-].
  rewrite !length_app, !map_app. cbn [length List.map q].
  split; [reflexivity|]. split; [reflexivity|]. split.
  - eexists. split; [apply last_snoc|reflexivity].
  - intros i Hi. rewrite !lookup_app_l by lia. reflexivity.
Qed.

(** X12: A whole round of [handleSubmit], from the click to the answer or
    the failure of the request, when nothing happens in between: the
    transcript grows by exactly one pair, the trimmed question with
    the text of the model or the apology; the input is cleared,
    loading is over, and the title changes only when the transcript
    was empty. *)
Theorem submit_round (v : View) (response : Result JsString.t) :
  askDisabled v = false ->
  handleSubmit_end response (fst (handleSubmit_begin v))
  = Ok {| question := []; isLoading := false;
          app := {| chatTitle :=
                      if Nat.eqb (length (qaPairs (app v))) 0
                      then deriveTitle (trim (question v))
                      else chatTitle (app v);
                    qaPairs :=
                      qaPairs (app v)
                      ++ [mkQA (trim (question v))
                            match response with
                            | Ok text => text
                            | Throw _ => apology
                            end];
                    downloads := downloads (app v) |} |}.
Proof.
  unfold askDisabled, handleSubmit_begin, handleSubmit_end. intros H.
  apply orb_false_iff in H as [-> ->]. cbn [orb fst app qaPairs].
  now rewrite setLastAnswer_snoc.
Qed.

(** X14: When the answer arrives after the transcript was emptied, the
    updater finds no last pair and throws: [handleSubmit_end] fails
    exactly on an empty transcript, and so after any New Chat that
    went through. *)
Theorem answer_on_empty_transcript_throws (v : View) (response : Result JsString.t) :
  (qaPairs (app v) = [] <-> exists e, handleSubmit_end response v = Throw e)
  /\ exists e, handleSubmit_end response (handleNewChat true v) = Throw e.
Proof.
  split.
  - unfold handleSubmit_end. split.
    + intros ->. eexists. reflexivity.
    + intros [e H]. destruct (decide (qaPairs (app v) = [])) as [E|Hne]; [exact E|].
      destruct (exists_last Hne) as (pairs & qa & E). rewrite E in H.
      rewrite setLastAnswer_snoc in H. discriminate H.
  - unfold handleNewChat. rewrite andb_false_r. eexists. reflexivity.
Qed.

(** The handler of the render that follows a call of [handleSubmit]
    refuses: the call either was refused itself or set [isLoading]. *)
Lemma handleSubmit_begin_next_render (v : View) :
  handleSubmit_begin (fst (handleSubmit_begin v))
  = (fst (handleSubmit_begin v), None).
Proof.
  unfold handleSubmit_begin.
  destruct (Nat.eqb (length (trim (question v))) 0) eqn:E; cbn [orb fst].
  - now rewrite E.
  - destruct (isLoading v) eqn:L; cbn [fst].
    + now rewrite E, L.
    + cbn [question isLoading]. now rewrite orb_true_r.
Qed.

(** *** Starting a new chat *)

(** X16: A New Chat that is declined changes nothing. One that goes
    through (the transcript is empty, or the user confirms) leaves an
    empty transcript under the default title, keeps the saved files
    and the loading flag, disables the Export button, and an export
    called all the same would do nothing. *)
Theorem new_chat_resets (pageHeight pageWidth : Q)
    (toPlainText : JsString.t -> Result JsString.t)
    (splitTextToSize : FontStyle -> Z -> JsString.t -> Q -> list JsString.t)
    (toLowerCase : JsString.t -> JsString.t)
    (confirmed : bool) (v : View) :
  let v' := handleNewChat confirmed v in
  (qaPairs (app v) <> [] /\ confirmed = false -> v' = v)
  /\ (qaPairs (app v) = [] \/ confirmed = true ->
      app v' = mkApp defaultTitle [] (downloads (app v))
      /\ question v' = []
      /\ isLoading v' = isLoading v
      /\ exportDisabled v' = true
      /\ handlePdfExport pageHeight pageWidth toPlainText splitTextToSize
           toLowerCase (app v') = (app v', None)).
Proof.
  unfold handleNewChat. split.
  - intros [Hne ->]. destruct (qaPairs (app v)); [congruence|reflexivity].
  - intros H.
    assert (E : negb (Nat.eqb (length (qaPairs (app v))) 0) && negb confirmed = false).
    { destruct H as [-> | ->]; [reflexivity|apply andb_false_r]. }
    rewrite E. repeat split.
Qed.

End ChatHandlers.

(** ** What holds in every state the component reaches *)

Section ChatInvariants.

Import Chat.

Variables pageHeight pageWidth : Q.
Variable toPlainText : JsString.t -> Result JsString.t.
Variable splitTextToSize :
  FontStyle -> Z -> JsString.t -> Q -> list JsString.t.
Variable toLowerCase : JsString.t -> JsString.t.

Local Abbreviation handlePdfExport :=
  (handlePdfExport pageHeight pageWidth toPlainText splitTextToSize toLowerCase).
Local Abbreviation Step :=
  (Step pageHeight pageWidth toPlainText splitTextToSize toLowerCase).
Local Abbreviation Reachable :=
  (Reachable pageHeight pageWidth toPlainText splitTextToSize toLowerCase).

(** An export leaves the title and the transcript alone and saves at
    most one file, under the name made of the title. *)
Lemma handlePdfExport_app (ap : App) :
  chatTitle (fst (handlePdfExport ap)) = chatTitle ap
  /\ qaPairs (fst (handlePdfExport ap)) = qaPairs ap
  /\ (downloads (fst (handlePdfExport ap)) = downloads ap
      \/ exists d, downloads (fst (handlePdfExport ap))
                   = downloads ap ++ [(fileName toLowerCase (chatTitle ap), d)]).
Proof.
  unfold Pdf.handlePdfExport.
  destruct (qaPairs ap) as [|qa pairs] eqn:E; [cbn [fst]; auto|].
  destruct (compose _ _ _ _ _ _) as [[[] s]|e]; cbn [fst chatTitle qaPairs downloads].
  - split; [reflexivity|]. split; [reflexivity|]. right. now exists (doc s).
  - auto.
Qed.

(** X15: Of two submit events in a row, each handled by the handler of
    the render that is current when it arrives (React renders again
    between two events), the second sends no request and changes
    nothing: the first was refused itself or left the component
    loading. Two calls of the handler of one and the same render are
    another matter, both read the [isLoading] of that render. *)
Theorem second_submit_event_sends_nothing (v v1 v2 : View) :
  Step v SubmitClicked v1 ->
  Step v1 SubmitClicked v2 ->
  v2 = v1 /\ snd (handleSubmit_begin v1) = None.
Proof.
  intros H1 H2. inversion H1; subst. inversion H2; subst.
  rewrite handleSubmit_begin_next_render. split; reflexivity.
Qed.

Lemma title_of_transcript_length (pairs : list QAPair) :
  (length match pairs with
          | [] => defaultTitle
          | first :: _ => deriveTitle (q first)
          end <= 43)%nat.
Proof.
  destruct pairs as [|first pairs].
  - vm_compute. lia.
  - apply deriveTitle_bounds.
Qed.

Lemma Reachable_invariant (v : View) :
  Reachable v ->
  Forall (fun qa => q qa <> [] /\ Trimmed (q qa)) (qaPairs (app v))
  /\ chatTitle (app v)
     = match qaPairs (app v) with
       | [] => defaultTitle
       | first :: _ => deriveTitle (q first)
       end
  /\ (isLoading v = true ->
      qaPairs (app v) = []
      \/ exists qa, last (qaPairs (app v)) = Some qa /\ a qa = [])
  /\ Forall (fun f => exists t, fst f = fileName toLowerCase t
                                /\ (length t <= 43)%nat)
       (downloads (app v)).
Proof.
  induction 1 as [|v e v' _ (Hq & Ht & Hl & Hd) Hstep].
  - repeat split; [constructor|auto|constructor].
  - destruct Hstep as [s v|v|response v v' Hload Hend|confirmed v|v].
    + (* typing *)
      cbn [typed app isLoading]. auto.
    + (* submit *)
      unfold handleSubmit_begin.
      destruct (Nat.eqb (length (trim (question v))) 0) eqn:E; cbn [orb fst];
        [auto|].
      destruct (isLoading v) eqn:L; cbn [fst]; [rewrite L; auto|].
      cbn [app qaPairs chatTitle isLoading downloads].
      split; [|split; [|split]].
      * apply Forall_app. split; [exact Hq|]. constructor; [|constructor].
        cbn [q]. split; [|apply trim_Trimmed].
        intros Hempty. rewrite Hempty in E. discriminate E.
      * destruct (qaPairs (app v)) as [|first pairs]; [reflexivity|exact Ht].
      * intros _. right. eexists. split; [apply last_snoc|reflexivity].
      * exact Hd.
    + (* the answer *)
      unfold handleSubmit_end in Hend.
      destruct (decide (qaPairs (app v) = [])) as [E|Hne];
        [rewrite E in Hend; discriminate Hend|].
      destruct (exists_last Hne) as (pairs & qa & E). rewrite E in *.
      rewrite setLastAnswer_snoc in Hend. injection Hend as <-.
      cbn [app qaPairs chatTitle isLoading downloads].
      split; [|split; [|split]].
      * apply Forall_app in Hq as [Hq1 Hq2]. apply Forall_app. split; [exact Hq1|].
        inversion Hq2; subst. constructor; [assumption|constructor].
      * rewrite Ht. destruct pairs; reflexivity.
      * discriminate.
      * exact Hd.
    + (* a new chat *)
      unfold handleNewChat.
      destruct (negb (Nat.eqb (length (qaPairs (app v))) 0) && negb confirmed);
        [auto|].
      cbn [app qaPairs chatTitle isLoading downloads].
      split; [constructor|]. auto.
    + (* an export *)
      cbn [app isLoading].
      destruct (handlePdfExport_app (app v)) as (Et & Ep & Edl).
      rewrite Et, Ep. split; [exact Hq|]. split; [exact Ht|]. split; [exact Hl|].
      destruct Edl as [-> | [d ->]]; [exact Hd|].
      apply Forall_app. split; [exact Hd|]. constructor; [|constructor].
      exists (chatTitle (app v)). split; [reflexivity|].
      rewrite Ht. apply title_of_transcript_length.
Qed.

(** X17: In every state the component reaches, each question of the
    transcript is non-empty and trimmed. *)
Theorem reachable_questions_trimmed (v : View) :
  Reachable v ->
  Forall (fun qa => q qa <> [] /\ trim (q qa) = q qa) (qaPairs (app v)).
Proof.
  intros H. apply Reachable_invariant in H as [Hq _].
  eapply Forall_impl; [exact Hq|].
  intros qa [Hne Htrim]. split; [exact Hne|now apply Trimmed_trim].
Qed.

(** X18: In every state the component reaches, the title is the default one
    while the transcript is empty and is made of the first question
    otherwise; so it is never longer than 43 code units. *)
Theorem reachable_title_of_first_question (v : View) :
  Reachable v ->
  chatTitle (app v)
  = match qaPairs (app v) with
    | [] => defaultTitle
    | first :: _ => deriveTitle (q first)
    end
  /\ (length (chatTitle (app v)) <= 43)%nat.
Proof.
  intros H. apply Reachable_invariant in H as (_ & Ht & _).
  split; [exact Ht|]. rewrite Ht. apply title_of_transcript_length.
Qed.

(** X19: In every state the component reaches, while a request is under way
    the transcript is empty (a new chat was started meanwhile) or its
    last answer is still the empty string. *)
Theorem reachable_loading_last_answer_empty (v : View) :
  Reachable v ->
  isLoading v = true ->
  qaPairs (app v) = []
  \/ exists qa, last (qaPairs (app v)) = Some qa /\ a qa = [].
Proof.
  intros H. now apply Reachable_invariant in H as (_ & _ & Hl & _).
Qed.

End ChatInvariants.

(** ** The names of the saved files *)

Section SafeFileNames.

Import Chat.

Variables pageHeight pageWidth : Q.
Variable toPlainText : JsString.t -> Result JsString.t.
Variable splitTextToSize :
  FontStyle -> Z -> JsString.t -> Q -> list JsString.t.
Variable toLowerCase : JsString.t -> JsString.t.

Hypothesis toLowerCase_ascii : lowers_ascii toLowerCase.

Lemma upper_to_lower (c : JsString.code_unit) :
  JsString.is_upper c = true -> JsString.is_lower (c + 32)%N = true.
Proof.
  unfold JsString.is_upper, JsString.is_lower.
  rewrite !andb_true_iff, !N.leb_le. lia.
Qed.

Lemma lower_not_upper (c : JsString.code_unit) :
  JsString.is_lower c = true -> JsString.is_upper c = false.
Proof.
  unfold JsString.is_upper, JsString.is_lower.
  rewrite andb_true_iff, andb_false_iff, !N.leb_le, !N.leb_gt. lia.
Qed.

Lemma fileName_unit_safe (c : JsString.code_unit) :
  JsString.is_lower (fileName_unit c) || JsString.is_digit (fileName_unit c)
  || (fileName_unit c =? JsString.underscore)%N = true.
Proof.
  unfold fileName_unit, JsString.in_class_a_z_0_9_i, JsString.ascii_lower.
  destruct (JsString.is_lower c) eqn:El; cbn [orb].
  - rewrite (lower_not_upper c El). now rewrite El.
  - destruct (JsString.is_upper c) eqn:Eu; cbn [orb].
    + now rewrite (upper_to_lower c Eu).
    + destruct (JsString.is_digit c) eqn:Ed; [now rewrite El, Ed|reflexivity].
Qed.

(** X9: The name of a saved file is as long as the title plus the four
    code units of [.pdf], and before [.pdf] it holds nothing but the
    lower-case letters [a-z], the digits and the underscore: no
    separator, dot, space or upper-case letter of the title gets
    through. *)
Theorem fileName_safe (title : JsString.t) :
  exists stem : JsString.t,
    fileName toLowerCase title = stem ++ JsString.lit ".pdf"
    /\ length stem = length title
    /\ Forall (fun c => JsString.is_lower c || JsString.is_digit c
                        || (c =? JsString.underscore)%N = true) stem.
Proof using toLowerCase_ascii.
  exists (List.map fileName_unit title). split; [|split].
  - now apply fileName_units.
  - apply length_map.
  - apply Forall_map, Forall_forall. intros c _. apply fileName_unit_safe.
Qed.

(** X20: Every file the component ever saves, in any state it reaches, has
    a name of at most 47 code units. *)
Theorem reachable_file_names_short (v : View) :
  Reachable pageHeight pageWidth toPlainText splitTextToSize toLowerCase v ->
  Forall (fun f => (length (fst f) <= 47)%nat) (downloads (app v)).
Proof using toLowerCase_ascii.
  intros H. apply Reachable_invariant in H as (_ & _ & _ & Hd).
  eapply Forall_impl; [exact Hd|].
  intros [name d] (t & E & Ht). cbn [fst] in *. subst name.
  destruct (fileName_safe t) as (stem & -> & Hlen & _).
  rewrite length_app, Hlen. change (length (JsString.lit ".pdf")) with 4%nat. lia.
Qed.

End SafeFileNames.

(** ** The transcript in [localStorage] *)

Section Persistence.

Import Chat.

Variable stringify : JsString.t * list QAPair -> JsString.t.
Variable parse : JsString.t -> Result (JsString.t * list QAPair).

Lemma saveEffect_nonempty (v : View) (storage : Storage) :
  qaPairs (app v) <> [] ->
  saveEffect stringify v storage
  = <[storageKey := stringify (chatTitle (app v), qaPairs (app v))]> storage.
Proof.
  unfold saveEffect. destruct (qaPairs (app v)); [congruence|reflexivity].
Qed.

Lemma saveEffect_empty (v : View) (storage : Storage) :
  qaPairs (app v) = [] -> saveEffect stringify v storage = delete storageKey storage.
Proof. unfold saveEffect. now intros ->. Qed.

(** X21: What the save effect writes, the load effect of a later visit
    reads back: with a transcript that is not empty, and a text that
    [JSON.parse] turns back into the title and the transcript, the
    loaded state has the saved title and transcript. *)
Theorem save_then_load_restores (v v0 : View) (storage : Storage) :
  qaPairs (app v) <> [] ->
  stringify (chatTitle (app v), qaPairs (app v)) <> [] ->
  parse (stringify (chatTitle (app v), qaPairs (app v)))
  = Ok (chatTitle (app v), qaPairs (app v)) ->
  loadEffect parse (saveEffect stringify v storage) v0
  = Ok {| question := question v0; isLoading := isLoading v0;
          app := {| chatTitle := chatTitle (app v); qaPairs := qaPairs (app v);
                    downloads := downloads (app v0) |} |}.
Proof.
  intros Hne Htext Hparse. rewrite saveEffect_nonempty by exact Hne.
  unfold loadEffect. rewrite lookup_insert_eq.
  destruct (stringify _) as [|c text]; [congruence|].
  now rewrite Hparse.
Qed.

(** X22: With an empty transcript the save effect removes the stored chat,
    and a later load finds nothing: it leaves the state as it is and
    does not call [JSON.parse]. *)
Theorem save_empty_transcript_forgets (v v0 : View) (storage : Storage) :
  qaPairs (app v) = [] ->
  saveEffect stringify v storage !! storageKey = None
  /\ loadEffect parse (saveEffect stringify v storage) v0 = Ok v0.
Proof.
  intros He. rewrite saveEffect_empty by exact He. split.
  - apply lookup_delete_eq.
  - unfold loadEffect. now rewrite lookup_delete_eq.
Qed.

(** X23: The save effect reads and writes the one item [exam-helper-chat]:
    every other item of the storage is as it was, and what an earlier
    save wrote is replaced. *)
Theorem saveEffect_one_item (v v' : View) (storage : Storage) :
  (forall k : list N, k <> storageKey ->
                      saveEffect stringify v storage !! k = storage !! k)
  /\ saveEffect stringify v (saveEffect stringify v' storage)
     = saveEffect stringify v storage.
Proof.
  split.
  - intros k Hk. unfold saveEffect.
    destruct (0 <? length (qaPairs (app v)))%nat.
    + now apply lookup_insert_ne.
    + now apply lookup_delete_ne.
  - unfold saveEffect.
    destruct (0 <? length (qaPairs (app v)))%nat,
             (0 <? length (qaPairs (app v')))%nat.
    + apply insert_insert_eq.
    + apply insert_delete_eq.
    + apply delete_insert_eq.
    + apply delete_delete_eq.
Qed.

End Persistence.

(** ** More on the layout of the export *)

Section LayoutMore.

Import Content.

Local Open Scope Q_scope.

Variables pageHeight pageWidth : Q.
Variable toPlainText : JsString.t -> Result JsString.t.
Variable splitTextToSize :
  FontStyle -> Z -> JsString.t -> Q -> list JsString.t.
Variable title : JsString.t.

Local Abbreviation renderMarkdown :=
  (renderMarkdown pageHeight pageWidth toPlainText splitTextToSize title).
Local Abbreviation drawTitle := (drawTitle pageWidth splitTextToSize title).
Local Abbreviation drawQuestion :=
  (drawQuestion pageHeight pageWidth splitTextToSize title).
Local Abbreviation drawPair :=
  (drawPair pageHeight pageWidth toPlainText splitTextToSize title).
Local Abbreviation layoutContent :=
  (layoutContent pageHeight pageWidth toPlainText splitTextToSize title).
Local Abbreviation compose :=
  (compose pageHeight pageWidth toPlainText splitTextToSize title).
Local Abbreviation broken := (broken pageHeight pageWidth title).
Local Abbreviation stamped := (stamped pageHeight pageWidth title).
Local Abbreviation stampedFrom := (stampedFrom pageHeight pageWidth title).
Local Abbreviation footer := (footer pageHeight pageWidth title).
Local Abbreviation bottomLimit := (bottomLimit pageHeight).
Local Abbreviation contentWidth := (contentWidth pageWidth).
Local Abbreviation placeBlock := (placeBlock pageHeight pageWidth title).
Local Abbreviation questionLines := (questionLines pageWidth splitTextToSize).
Local Abbreviation answerLines :=
  (answerLines pageWidth toPlainText splitTextToSize).
Local Abbreviation titleLines := (titleLines pageWidth splitTextToSize).
Local Abbreviation contentOps := (contentOps pageHeight).
Local Abbreviation onFooterLine := (onFooterLine pageHeight).
Local Abbreviation blocksOf := (blocksOf pageWidth toPlainText splitTextToSize).
Local Abbreviation pairHeight := (pairHeight pageWidth toPlainText splitTextToSize).
Local Abbreviation pairsHeight := (pairsHeight pageWidth toPlainText splitTextToSize).
Local Abbreviation flowEnd := (flowEnd pageWidth toPlainText splitTextToSize).
Local Abbreviation PagesStartWithBlock :=
  (PagesStartWithBlock pageWidth splitTextToSize title).
Local Abbreviation OpenedByBreak :=
  (OpenedByBreak pageHeight pageWidth toPlainText splitTextToSize title).

(** *** The cursor and the font of a block *)

Lemma placeBlock_yPos ls (h gap : Q) (s : Env) :
  yPos (placeBlock ls h gap s)
  = (if Qgtb (yPos s + h) bottomLimit then pageMargin else yPos s) + (h + gap).
Proof. unfold Pdf.placeBlock. now destruct (Qgtb _ _). Qed.

Lemma placeBlock_getNumberOfPages ls (h gap : Q) (s : Env) :
  getNumberOfPages (doc (placeBlock ls h gap s))
  = if Qgtb (yPos s + h) bottomLimit
    then S (getNumberOfPages (doc s)) else getNumberOfPages (doc s).
Proof.
  unfold Pdf.placeBlock. cbn [doc]. rewrite getNumberOfPages_text.
  destruct (Qgtb _ _); [apply getNumberOfPages_broken|reflexivity].
Qed.

Lemma placeBlock_bound ls (h gap : Q) (s : Env) :
  h <= pageHeight - pageMargin * 2 ->
  yPos (placeBlock ls h gap s) <= bottomLimit + gap.
Proof.
  intros Hh. rewrite placeBlock_yPos.
  destruct (Qgtb (yPos s + h) bottomLimit) eqn:E.
  - unfold Pdf.bottomLimit, pageMargin in *. lra.
  - apply Qgtb_false in E. lra.
Qed.

(** X7: After a question or an answer that is no taller than the usable
    page height, the cursor is beyond the bottom limit by at most the
    spacing that follows the block: 15 after a question, 10 after an
    answer. *)
Theorem advance_overshoot_bounded :
  (forall (qa : QAPair) (s s' : Env),
      len (questionLines qa) * 14 <= pageHeight - pageMargin * 2 ->
      drawQuestion qa s = Ok (tt, s') ->
      yPos s' <= bottomLimit + 15)
  /\ (forall (t plain : JsString.t) (s s' : Env),
         toPlainText t = Ok plain ->
         len (splitTextToSize Normal 11 plain contentWidth) * 12
         <= pageHeight - pageMargin * 2 ->
         renderMarkdown t s = Ok (tt, s') ->
         yPos s' <= bottomLimit + 10).
Proof.
  split.
  - intros qa s s' Hh. rewrite drawQuestion_run. intros [= <-].
    now apply placeBlock_bound.
  - intros t plain s s' Hplain Hh.
    rewrite (renderMarkdown_run _ _ _ _ _ t plain s Hplain). intros [= <-].
    now apply placeBlock_bound.
Qed.

Lemma placeBlock_lastDrawn_font ls (h gap : Q) (s : Env) :
  current_exists (doc s) ->
  lastDrawn (doc (placeBlock ls h gap s))
  = Some (if Qgtb (yPos s + h) bottomLimit
          then mkTextOp ls pageMargin pageMargin AlignLeft Normal 9 (Gray 150)
          else mkTextOp ls pageMargin (yPos s) AlignLeft
                 (font (doc s)) (fontSize (doc s)) (textColor (doc s))).
Proof.
  intros Hc. unfold Pdf.placeBlock. cbn [doc].
  destruct (Qgtb _ _).
  - rewrite lastDrawn_text by apply current_exists_broken. reflexivity.
  - now rewrite lastDrawn_text.
Qed.

(** X6: A question is drawn in bold 12pt black and an answer in normal
    11pt grey only when it stays on the page: a block that moves to a
    new page is drawn at the top margin with the font, size and colour
    of the footer just stamped (normal 9pt, grey 150). *)
Theorem block_font_depends_on_break :
  (forall (qa : QAPair) (s : Env),
      current_exists (doc s) ->
      exists s',
        drawQuestion qa s = Ok (tt, s')
        /\ lastDrawn (doc s')
           = Some (if Qgtb (yPos s + len (questionLines qa) * 14) bottomLimit
                   then mkTextOp (questionLines qa) pageMargin pageMargin
                          AlignLeft Normal 9 (Gray 150)
                   else mkTextOp (questionLines qa) pageMargin (yPos s)
                          AlignLeft Bold 12 (RGB 0 0 0)))
  /\ (forall (t plain : JsString.t) (s : Env),
         toPlainText t = Ok plain ->
         current_exists (doc s) ->
         let splitText := splitTextToSize Normal 11 plain contentWidth in
         exists s',
           renderMarkdown t s = Ok (tt, s')
           /\ lastDrawn (doc s')
              = Some (if Qgtb (yPos s + len splitText * 12) bottomLimit
                      then mkTextOp splitText pageMargin pageMargin
                             AlignLeft Normal 9 (Gray 150)
                      else mkTextOp splitText pageMargin (yPos s)
                             AlignLeft Normal 11 (RGB 50 50 50))).
Proof.
  split.
  - intros qa s Hc. eexists. split; [apply drawQuestion_run|].
    now rewrite placeBlock_lastDrawn_font.
  - intros t plain s Hplain Hc splitText. eexists.
    split; [exact (renderMarkdown_run _ _ _ _ _ t plain s Hplain)|].
    now rewrite placeBlock_lastDrawn_font.
Qed.

(** *** The content of the pages *)

Lemma concat_alter_last (x : Page) (ps : list Page) (k : nat) :
  length ps = S k -> concat (alter (fun p => p ++ x) k ps) = concat ps ++ x.
Proof.
  intros Hlen. destruct (decide (ps = [])) as [->|Hne]; [discriminate|].
  destruct (exists_last Hne) as (init & p & ->).
  rewrite length_app in Hlen. cbn [length] in Hlen.
  replace k with (length init + 0)%nat by lia.
  rewrite alter_app_r. cbn [alter list_alter].
  rewrite !concat_app. cbn [concat]. now rewrite !app_nil_r, app_assoc.
Qed.

Lemma filter_concat_alter (f : TextOp -> bool) (x : Page) (ps : list Page) (k : nat) :
  List.filter f x = [] ->
  List.filter f (concat (alter (fun p => p ++ x) k ps)) = List.filter f (concat ps).
Proof.
  intros Hx. revert k. induction ps as [|p ps IH]; intros k; [reflexivity|].
  destruct k as [|k]; cbn [alter list_alter concat].
  - now rewrite <- app_assoc, !List.filter_app, Hx.
  - now rewrite !List.filter_app, IH.
Qed.

Lemma footer_on_footer_line (n : nat) :
  List.filter (fun op => negb (onFooterLine op)) (footer n) = [].
Proof.
  unfold Pdf.footer, Pdf.footerTitleOp, Pdf.footerNumberOp, Content.onFooterLine.
  cbn [List.filter op_y]. now rewrite Qeq_bool_refl.
Qed.

Lemma contentOps_stamped (n : nat) (d : JsPDF.t) :
  contentOps (stamped n d) = contentOps d.
Proof.
  unfold Content.contentOps, Pdf.stamped. cbn [pages].
  apply filter_concat_alter, footer_on_footer_line.
Qed.

Lemma contentOps_broken (s : Env) : contentOps (doc (broken s)) = contentOps (doc s).
Proof.
  unfold Content.contentOps. rewrite pages_broken, concat_app. cbn [concat].
  rewrite !app_nil_r. apply filter_concat_alter, footer_on_footer_line.
Qed.

Lemma on_last_page_broken (s : Env) : on_last_page (doc (broken s)).
Proof.
  unfold on_last_page. rewrite current_broken.
  change (length (pages (doc (broken s)))) with (getNumberOfPages (doc (broken s))).
  rewrite getNumberOfPages_broken. lia.
Qed.

Lemma on_last_page_text ls x y al (d : JsPDF.t) :
  on_last_page d -> on_last_page (text ls x y al d).
Proof.
  unfold on_last_page.
  change (length (pages (text ls x y al d))) with (getNumberOfPages (text ls x y al d)).
  rewrite getNumberOfPages_text. auto.
Qed.

Lemma contentOps_text (ls : list JsString.t) (x y : Q) (al : Align) (d : JsPDF.t) :
  on_last_page d ->
  Qeq_bool y (pageHeight - 20) = false ->
  contentOps (text ls x y al d)
  = contentOps d ++ [mkTextOp ls x y al (font d) (fontSize d) (textColor d)].
Proof.
  intros [Hlen Hcur] Hy. unfold Content.contentOps, text. cbn [pages].
  rewrite concat_alter_last by lia. rewrite List.filter_app.
  cbn [List.filter]. unfold Content.onFooterLine. cbn [op_y]. now rewrite Hy.
Qed.

Lemma on_last_page_placeBlock ls (h gap : Q) (s : Env) :
  on_last_page (doc s) -> on_last_page (doc (placeBlock ls h gap s)).
Proof.
  intros H. unfold Pdf.placeBlock. cbn [doc]. apply on_last_page_text.
  destruct (Qgtb _ _); [apply on_last_page_broken|exact H].
Qed.

Lemma below_footer_line (y : Q) :
  y < pageHeight - 20 -> Qeq_bool y (pageHeight - 20) = false.
Proof.
  intros H. destruct (Qeq_bool y (pageHeight - 20)) eqn:E; [|reflexivity].
  apply Qeq_bool_iff in E. lra.
Qed.

Lemma contentOps_placeBlock ls (h gap : Q) (s : Env) :
  70 < pageHeight -> 0 <= h -> on_last_page (doc s) ->
  List.map op_lines (contentOps (doc (placeBlock ls h gap s)))
  = List.map op_lines (contentOps (doc s)) ++ [ls].
Proof.
  intros Hpage Hh Hlast. unfold Pdf.placeBlock. cbn [doc].
  destruct (Qgtb (yPos s + h) bottomLimit) eqn:E.
  - rewrite contentOps_text;
      [|apply on_last_page_broken
       |apply below_footer_line; cbn [yPos Pdf.broken]; unfold pageMargin; lra].
    rewrite contentOps_broken, map_app. reflexivity.
  - apply Qgtb_false in E.
    rewrite contentOps_text;
      [|exact Hlast
       |apply below_footer_line; unfold Pdf.bottomLimit, pageMargin in E; lra].
    rewrite map_app. reflexivity.
Qed.

Lemma answerLines_Ok (qa : QAPair) (plain : JsString.t) :
  toPlainText (a qa) = Ok plain ->
  answerLines qa = splitTextToSize Normal 11 plain contentWidth.
Proof. unfold Content.answerLines. now intros ->. Qed.

(** The state after a pair, in terms of its two blocks. *)
Lemma drawPair_blocks (qa : QAPair) (s s' : Env) :
  drawPair qa s = Ok (tt, s') ->
  exists s1 s2,
    s1 = placeBlock (questionLines qa) (len (questionLines qa) * 14) 15
           {| doc := setTextColor (RGB 0 0 0)
                       (setFontSize 12 (setFont Bold (doc s)));
              yPos := yPos s |}
    /\ s2 = placeBlock (answerLines qa) (len (answerLines qa) * 12) 10
              {| doc := setTextColor (RGB 50 50 50)
                          (setFontSize 11 (setFont Normal (doc s1)));
                 yPos := yPos s1 |}
    /\ s' = {| doc := doc s2; yPos := yPos s2 + 25 |}.
Proof.
  destruct (toPlainText (a qa)) as [plain|e] eqn:E.
  - rewrite (drawPair_Ok _ _ _ _ _ qa plain s E). intros [= <-].
    rewrite (answerLines_Ok qa plain E). eauto.
  - now rewrite (drawPair_Throw _ _ _ _ _ qa e s E).
Qed.

Lemma forEach_contentOps (pairs : list QAPair) (s s' : Env) :
  70 < pageHeight ->
  on_last_page (doc s) ->
  forEach drawPair pairs s = Ok (tt, s') ->
  on_last_page (doc s')
  /\ List.map op_lines (contentOps (doc s'))
     = List.map op_lines (contentOps (doc s))
       ++ flat_map (fun qa => [questionLines qa; answerLines qa]) pairs.
Proof.
  intros Hpage. revert s. induction pairs as [|qa pairs IH]; intros s Hlast Hrun.
  - injection Hrun as <-. cbn [flat_map]. now rewrite app_nil_r.
  - cbn [forEach] in Hrun. apply bind_Ok in Hrun as ([] & s3 & Hqa & Hrest).
    apply drawPair_blocks in Hqa as (s1 & s2 & E1 & E2 & E3).
    assert (H1 : on_last_page (doc s1))
      by (rewrite E1; apply on_last_page_placeBlock; exact Hlast).
    assert (H2 : on_last_page (doc s2))
      by (rewrite E2; apply on_last_page_placeBlock; exact H1).
    assert (H3 : on_last_page (doc s3)) by (rewrite E3; exact H2).
    destruct (IH s3 H3 Hrest) as [Hlast' Hops]. split; [exact Hlast'|].
    rewrite Hops, E3. cbn [doc flat_map].
    rewrite E2, contentOps_placeBlock;
      [|exact Hpage|apply block_height_nonneg; lra|exact H1].
    cbn [doc]. change (contentOps (setTextColor ?c (setFontSize ?z (setFont ?f ?d))))
      with (contentOps d).
    rewrite E1, contentOps_placeBlock;
      [|exact Hpage|apply block_height_nonneg; lra|exact Hlast].
    cbn [doc]. change (contentOps (setTextColor ?c (setFontSize ?z (setFont ?f ?d))))
      with (contentOps d).
    now rewrite <- !app_assoc.
Qed.

Lemma contentOps_stampedFrom (count from : nat) (d : JsPDF.t) :
  contentOps (stampedFrom from count d) = contentOps d.
Proof.
  revert from d. induction count as [|count IH]; intros from d; [reflexivity|].
  cbn [Pdf.stampedFrom]. rewrite IH, contentOps_stamped.
  unfold setPage. now destruct (_ && _).
Qed.

(** X1: Every block of the transcript is in the exported document, once
    and in reading order: on a page taller than 100, the operations
    above the footer line, page after page, are the title, then for
    each pair its question and its answer. *)
Theorem blocks_in_reading_order (pairs : list QAPair) (s : Env) :
  100 < pageHeight ->
  compose pairs = Ok (tt, s) ->
  List.map op_lines (contentOps (doc s)) = blocksOf title pairs.
Proof.
  intros Hpage. unfold Pdf.compose. intros H.
  apply bind_Ok in H as ([] & s1 & Hcontent & Hstamp).
  rewrite stampFooters_run in Hstamp. injection Hstamp as <-. cbn [doc].
  rewrite contentOps_stampedFrom.
  unfold Pdf.layoutContent in Hcontent.
  apply bind_Ok in Hcontent as ([] & s0 & Ht & Hrest).
  rewrite drawTitle_run in Ht. injection Ht as <-.
  apply forEach_contentOps in Hrest as [_ ->]; [|lra|split; simpl; lia].
  cbn [doc]. rewrite contentOps_text;
    [|split; simpl; lia|apply below_footer_line; lra].
  reflexivity.
Qed.

(** *** The number of pages *)

Lemma forEach_pages_bound (pairs : list QAPair) (s s' : Env) :
  forEach drawPair pairs s = Ok (tt, s') ->
  (getNumberOfPages (doc s) <= getNumberOfPages (doc s')
   <= getNumberOfPages (doc s) + 2 * length pairs)%nat.
Proof.
  revert s. induction pairs as [|qa pairs IH]; intros s Hrun.
  - injection Hrun as <-. cbn [length]. lia.
  - cbn [forEach] in Hrun. apply bind_Ok in Hrun as ([] & s3 & Hqa & Hrest).
    apply drawPair_blocks in Hqa as (s1 & s2 & E1 & E2 & E3).
    specialize (IH s3 Hrest).
    assert (H1 : (getNumberOfPages (doc s) <= getNumberOfPages (doc s1)
                  <= S (getNumberOfPages (doc s)))%nat).
    { rewrite E1, placeBlock_getNumberOfPages. cbn [doc].
      change (getNumberOfPages (setTextColor ?c (setFontSize ?z (setFont ?f ?d))))
        with (getNumberOfPages d).
      destruct (Qgtb _ _); lia. }
    assert (H2 : (getNumberOfPages (doc s1) <= getNumberOfPages (doc s3)
                  <= S (getNumberOfPages (doc s1)))%nat).
    { rewrite E3. cbn [doc]. rewrite E2, placeBlock_getNumberOfPages. cbn [doc].
      change (getNumberOfPages (setTextColor ?c (setFontSize ?z (setFont ?f ?d))))
        with (getNumberOfPages d).
      destruct (Qgtb _ _); lia. }
    cbn [length]. lia.
Qed.

(** X3: An exported document has at least one page and at most one more
    than twice the number of pairs: only a question or an answer adds
    a page, and each adds at most one. *)
Theorem page_count_bounds (pairs : list QAPair) (s : Env) :
  compose pairs = Ok (tt, s) ->
  (1 <= getNumberOfPages (doc s) <= 1 + 2 * length pairs)%nat.
Proof.
  unfold Pdf.compose. intros H.
  apply bind_Ok in H as ([] & s1 & Hcontent & Hstamp).
  rewrite stampFooters_run in Hstamp. injection Hstamp as <-. cbn [doc].
  unfold Pdf.layoutContent in Hcontent.
  apply bind_Ok in Hcontent as ([] & s0 & Ht & Hrest).
  rewrite drawTitle_run in Ht. injection Ht as <-.
  apply forEach_pages_bound in Hrest. cbn [doc] in Hrest.
  rewrite getNumberOfPages_text in Hrest.
  change (getNumberOfPages (setTextColor ?c (setFontSize ?z (setFont ?f ?d))))
    with (getNumberOfPages d) in Hrest.
  change (getNumberOfPages create) with 1%nat in Hrest.
  destruct (stampedFrom_pages pageHeight pageWidth title
              (getNumberOfPages (doc s1)) 1 (doc s1)) as [-> _]; lia.
Qed.

(** *** The first operation of each page *)

Lemma head_page_alter_app (x : Page) (c i : nat) (d d' : JsPDF.t) (op : TextOp) :
  (1 <= c)%nat -> (1 <= i <= getNumberOfPages d)%nat ->
  pages d' = alter (fun p => p ++ x) (c - 1)%nat (pages d) ->
  head (page i d) = Some op ->
  head (page i d') = Some op.
Proof.
  intros Hc Hi Hp Hhead. destruct (decide (i = c)) as [->|Hne].
  - rewrite (page_alter_eq (fun p => p ++ x) c d d' Hi Hp).
    apply head_app_Some. now left.
  - rewrite (page_alter_ne (fun p => p ++ x) c i d d' Hc (proj1 Hi) Hne Hp).
    exact Hhead.
Qed.

Lemma PagesStartWithBlock_alter (x : Page) (c : nat) (d d' : JsPDF.t) :
  (1 <= c)%nat ->
  pages d' = alter (fun p => p ++ x) (c - 1)%nat (pages d) ->
  PagesStartWithBlock d -> PagesStartWithBlock d'.
Proof.
  intros Hc Hp [H1 Hrest].
  assert (Hn : getNumberOfPages d' = getNumberOfPages d)
    by (unfold getNumberOfPages; rewrite Hp; apply length_alter).
  assert (Hpos : (1 <= getNumberOfPages d)%nat).
  { unfold getNumberOfPages, page in *.
    destruct (pages d); [discriminate H1|simpl; lia]. }
  split.
  - apply (head_page_alter_app x c 1 d d'); auto; lia.
  - intros i Hi. rewrite Hn in Hi. destruct (Hrest i Hi) as [ls Hls].
    exists ls. apply (head_page_alter_app x c i d d'); auto; lia.
Qed.

Lemma PagesStartWithBlock_snoc (d d' : JsPDF.t) (ls : list JsString.t) :
  pages d'
  = pages d ++ [[mkTextOp ls pageMargin pageMargin AlignLeft Normal 9 (Gray 150)]] ->
  PagesStartWithBlock d -> PagesStartWithBlock d'.
Proof.
  intros Hp [H1 Hrest].
  assert (Hn : getNumberOfPages d' = S (getNumberOfPages d))
    by (unfold getNumberOfPages; rewrite Hp, length_app; simpl; lia).
  assert (Hpos : (1 <= getNumberOfPages d)%nat).
  { unfold getNumberOfPages, page in *.
    destruct (pages d); [discriminate H1|simpl; lia]. }
  split.
  - rewrite (page_app_l _ 1 d d' ltac:(lia) Hp). exact H1.
  - intros i Hi. rewrite Hn in Hi.
    destruct (decide (i = S (getNumberOfPages d))) as [->|Hne].
    + exists ls. now rewrite (page_snoc d' _ _ (getNumberOfPages d) Hp eq_refl).
    + rewrite (page_app_l _ i d d' ltac:(lia) Hp). apply Hrest. lia.
Qed.

Lemma PagesStartWithBlock_placeBlock ls (h gap : Q) (s : Env) :
  on_last_page (doc s) ->
  PagesStartWithBlock (doc s) ->
  PagesStartWithBlock (doc (placeBlock ls h gap s)).
Proof.
  intros [Hlen Hcur] H. unfold Pdf.placeBlock. cbn [doc].
  destruct (Qgtb _ _).
  - apply (PagesStartWithBlock_snoc
             (stamped (getNumberOfPages (doc s)) (doc s)) _ ls).
    + apply pages_text_broken.
    + apply (PagesStartWithBlock_alter (footer (getNumberOfPages (doc s)))
               (current (doc s)) (doc s)); [lia|reflexivity|exact H].
  - eapply (PagesStartWithBlock_alter _ (current (doc s)) (doc s));
      [lia|reflexivity|exact H].
Qed.

Lemma PagesStartWithBlock_forEach (pairs : list QAPair) (s s' : Env) :
  on_last_page (doc s) ->
  PagesStartWithBlock (doc s) ->
  forEach drawPair pairs s = Ok (tt, s') ->
  on_last_page (doc s') /\ PagesStartWithBlock (doc s').
Proof.
  revert s. induction pairs as [|qa pairs IH]; intros s Hlast Hp Hrun.
  - injection Hrun as <-. auto.
  - cbn [forEach] in Hrun. apply bind_Ok in Hrun as ([] & s3 & Hqa & Hrest).
    apply drawPair_blocks in Hqa as (s1 & s2 & E1 & E2 & E3).
    assert (L1 : on_last_page (doc s1))
      by (rewrite E1; apply on_last_page_placeBlock; exact Hlast).
    assert (P1 : PagesStartWithBlock (doc s1))
      by (rewrite E1; apply PagesStartWithBlock_placeBlock; [exact Hlast|exact Hp]).
    assert (L2 : on_last_page (doc s2))
      by (rewrite E2; apply on_last_page_placeBlock; exact L1).
    assert (P2 : PagesStartWithBlock (doc s2))
      by (rewrite E2; apply PagesStartWithBlock_placeBlock; [exact L1|exact P1]).
    apply (IH s3); [rewrite E3; exact L2|rewrite E3; exact P2|exact Hrest].
Qed.

Lemma PagesStartWithBlock_stampedFrom (count from : nat) (d : JsPDF.t) :
  (1 <= from)%nat -> (from + count <= S (getNumberOfPages d))%nat ->
  PagesStartWithBlock d -> PagesStartWithBlock (stampedFrom from count d).
Proof.
  intros Hfrom Hend [H1 Hrest].
  destruct (stampedFrom_pages pageHeight pageWidth title count from d Hfrom Hend)
    as [Hn Hpages].
  split.
  - rewrite Hpages by lia. apply head_app_Some. now left.
  - intros i Hi. rewrite Hn in Hi. destruct (Hrest i Hi) as [ls Hls].
    exists ls. rewrite Hpages by lia. apply head_app_Some. now left.
Qed.

Lemma PagesStartWithBlock_compose (pairs : list QAPair) (s : Env) :
  compose pairs = Ok (tt, s) -> PagesStartWithBlock (doc s).
Proof.
  unfold Pdf.compose. intros H.
  apply bind_Ok in H as ([] & s1 & Hcontent & Hstamp).
  rewrite stampFooters_run in Hstamp. injection Hstamp as <-. cbn [doc].
  unfold Pdf.layoutContent in Hcontent.
  apply bind_Ok in Hcontent as ([] & s0 & Ht & Hrest).
  rewrite drawTitle_run in Ht. injection Ht as <-.
  apply PagesStartWithBlock_forEach in Hrest as [[Hlen _] Hp].
  - apply PagesStartWithBlock_stampedFrom; [lia|lia|exact Hp].
  - split; simpl; lia.
  - split; [reflexivity|]. intros i Hi. cbn [doc] in Hi.
    rewrite getNumberOfPages_text in Hi. vm_compute in Hi. lia.
Qed.

(** What a page starts with stays: the export only appends, to pages
    and to the document. *)
Lemma head_page_placeBlock ls (h gap : Q) (s : Env) (i : nat) (op : TextOp) :
  on_last_page (doc s) ->
  (1 <= i <= getNumberOfPages (doc s))%nat ->
  head (page i (doc s)) = Some op ->
  head (page i (doc (placeBlock ls h gap s))) = Some op.
Proof.
  intros [Hlen Hcur] Hi Hhead. unfold Pdf.placeBlock. cbn [doc].
  destruct (Qgtb _ _).
  - rewrite (page_app_l _ i (stamped (getNumberOfPages (doc s)) (doc s)) _
               ltac:(rewrite getNumberOfPages_stamped; exact Hi)
               (pages_text_broken _ _ _ _ _ _ _ s)).
    apply (head_page_alter_app (footer (getNumberOfPages (doc s)))
             (current (doc s)) i (doc s)); [lia|exact Hi|reflexivity|exact Hhead].
  - eapply (head_page_alter_app _ (current (doc s)) i (doc s));
      [lia|exact Hi|reflexivity|exact Hhead].
Qed.

(** A block that does not fit is the first operation of the page its
    break adds. *)
Lemma placeBlock_opens ls (h gap : Q) (s : Env) :
  Qgtb (yPos s + h) bottomLimit = true ->
  head (page (S (getNumberOfPages (doc s))) (doc (placeBlock ls h gap s)))
  = Some (blockAtTop ls).
Proof.
  intros E. unfold Pdf.placeBlock. rewrite E. cbn [doc].
  rewrite (page_snoc _ _ _ (getNumberOfPages (doc s))
             (pages_text_broken pageHeight pageWidth title ls pageMargin
                (yPos (broken s)) AlignLeft s)).
  - reflexivity.
  - rewrite length_alter. reflexivity.
Qed.

Lemma head_page_drawPair (qa : QAPair) (s s' : Env) (i : nat) (op : TextOp) :
  on_last_page (doc s) ->
  (1 <= i <= getNumberOfPages (doc s))%nat ->
  head (page i (doc s)) = Some op ->
  drawPair qa s = Ok (tt, s') ->
  on_last_page (doc s')
  /\ (getNumberOfPages (doc s) <= getNumberOfPages (doc s'))%nat
  /\ head (page i (doc s')) = Some op.
Proof.
  intros Hlast Hi Hhead Hqa.
  apply drawPair_blocks in Hqa as (s1 & s2 & E1 & E2 & E3).
  assert (L1 : on_last_page (doc s1))
    by (rewrite E1; apply on_last_page_placeBlock; exact Hlast).
  assert (N1 : (getNumberOfPages (doc s) <= getNumberOfPages (doc s1))%nat).
  { rewrite E1, placeBlock_getNumberOfPages. cbn [doc yPos].
    change (getNumberOfPages (setTextColor ?c (setFontSize ?z (setFont ?f ?d))))
      with (getNumberOfPages d).
    destruct (Qgtb _ _); lia. }
  assert (H1 : head (page i (doc s1)) = Some op)
    by (rewrite E1; apply head_page_placeBlock; [exact Hlast|exact Hi|exact Hhead]).
  assert (L2 : on_last_page (doc s2))
    by (rewrite E2; apply on_last_page_placeBlock; exact L1).
  assert (N2 : (getNumberOfPages (doc s1) <= getNumberOfPages (doc s2))%nat).
  { rewrite E2, placeBlock_getNumberOfPages. cbn [doc yPos].
    change (getNumberOfPages (setTextColor ?c (setFontSize ?z (setFont ?f ?d))))
      with (getNumberOfPages d).
    destruct (Qgtb _ _); lia. }
  assert (H2 : head (page i (doc s2)) = Some op).
  { rewrite E2. apply head_page_placeBlock; [exact L1| |exact H1].
    cbn [doc]. change (getNumberOfPages (setTextColor ?c (setFontSize ?z (setFont ?f ?d))))
      with (getNumberOfPages d). lia. }
  rewrite E3. cbn [doc]. split; [exact L2|]. split; [lia|exact H2].
Qed.

Lemma head_page_forEach (pairs : list QAPair) (s s' : Env) (i : nat) (op : TextOp) :
  on_last_page (doc s) ->
  (1 <= i <= getNumberOfPages (doc s))%nat ->
  head (page i (doc s)) = Some op ->
  forEach drawPair pairs s = Ok (tt, s') ->
  head (page i (doc s')) = Some op.
Proof.
  revert s. induction pairs as [|qa pairs IH]; intros s Hlast Hi Hhead Hrun.
  - now injection Hrun as <-.
  - cbn [forEach] in Hrun. apply bind_Ok in Hrun as ([] & s3 & Hqa & Hrest).
    destruct (head_page_drawPair qa s s3 i op Hlast Hi Hhead Hqa)
      as (L3 & N3 & H3).
    apply (IH s3); [exact L3|lia|exact H3|exact Hrest].
Qed.

(** The pages a run of pairs adds, each with the block that opened
    it. *)
Lemma forEach_opened (pairs : list QAPair) (s0 sf : Env) :
  on_last_page (doc s0) ->
  forEach drawPair pairs s0 = Ok (tt, sf) ->
  forall i : nat,
    (getNumberOfPages (doc s0) < i <= getNumberOfPages (doc sf))%nat ->
    exists (before after : list QAPair) (qa : QAPair) (s : Env),
      pairs = before ++ qa :: after
      /\ forEach drawPair before s0 = Ok (tt, s)
      /\ ((bottomLimit < yPos s + len (questionLines qa) * 14
           /\ i = S (getNumberOfPages (doc s))
           /\ head (page i (doc sf)) = Some (blockAtTop (questionLines qa)))
          \/ (exists s1 : Env,
                drawQuestion qa s = Ok (tt, s1)
                /\ bottomLimit < yPos s1 + len (answerLines qa) * 12
                /\ i = S (getNumberOfPages (doc s1))
                /\ head (page i (doc sf)) = Some (blockAtTop (answerLines qa)))).
Proof.
  revert s0. induction pairs as [|qa pairs IH]; intros s0 Hlast Hrun i Hi.
  - injection Hrun as <-. lia.
  - cbn [forEach] in Hrun. apply bind_Ok in Hrun as ([] & s3 & Hqa & Hrest).
    pose proof Hqa as Hblocks.
    apply drawPair_blocks in Hblocks as (s1 & s2 & E1 & E2 & E3).
    assert (Hq : drawQuestion qa s0 = Ok (tt, s1))
      by (rewrite E1; apply drawQuestion_run).
    assert (L1 : on_last_page (doc s1))
      by (rewrite E1; apply on_last_page_placeBlock; exact Hlast).
    assert (L2 : on_last_page (doc s2))
      by (rewrite E2; apply on_last_page_placeBlock; exact L1).
    assert (L3 : on_last_page (doc s3)) by (rewrite E3; exact L2).
    assert (N1 : getNumberOfPages (doc s1)
                 = if Qgtb (yPos s0 + len (questionLines qa) * 14) bottomLimit
                   then S (getNumberOfPages (doc s0))
                   else getNumberOfPages (doc s0))
      by (rewrite E1, placeBlock_getNumberOfPages; reflexivity).
    assert (N2 : getNumberOfPages (doc s3)
                 = if Qgtb (yPos s1 + len (answerLines qa) * 12) bottomLimit
                   then S (getNumberOfPages (doc s1))
                   else getNumberOfPages (doc s1))
      by (rewrite E3; cbn [doc]; rewrite E2, placeBlock_getNumberOfPages;
          reflexivity).
    destruct (decide (i <= getNumberOfPages (doc s3))%nat) as [Hin|Hout].
    + exists [], pairs, qa, s0. split; [reflexivity|]. split; [reflexivity|].
      destruct (Qgtb (yPos s0 + len (questionLines qa) * 14) bottomLimit) eqn:Bq;
        [destruct (decide (i = S (getNumberOfPages (doc s0)))) as [->|Hne]|].
      * left. split; [now apply Qgtb_true|]. split; [reflexivity|].
        apply (head_page_forEach pairs s3); [exact L3| | |exact Hrest].
        { lia. }
        rewrite E3. cbn [doc]. rewrite E2.
        apply head_page_placeBlock; [exact L1| |].
        { cbn [doc]. change (getNumberOfPages (setTextColor ?c (setFontSize ?z (setFont ?f ?d))))
            with (getNumberOfPages d). lia. }
        change (page ?k (doc {| doc := setTextColor ?c (setFontSize ?z (setFont ?f ?d));
                                yPos := ?y |}))
          with (page k d).
        rewrite E1.
        exact (placeBlock_opens _ _ _
                 {| doc := setTextColor (RGB 0 0 0)
                             (setFontSize 12 (setFont Bold (doc s0)));
                    yPos := yPos s0 |} Bq).
      * right. exists s1. split; [exact Hq|].
        destruct (Qgtb (yPos s1 + len (answerLines qa) * 12) bottomLimit) eqn:Ba;
          [|lia].
        split; [now apply Qgtb_true|]. split; [lia|].
        assert (i = S (getNumberOfPages (doc s1))) as -> by lia.
        apply (head_page_forEach pairs s3); [exact L3|lia| |exact Hrest].
        rewrite E3. cbn [doc]. rewrite E2.
        exact (placeBlock_opens _ _ _
                 {| doc := setTextColor (RGB 50 50 50)
                             (setFontSize 11 (setFont Normal (doc s1)));
                    yPos := yPos s1 |} Ba).
      * right. exists s1. split; [exact Hq|].
        destruct (Qgtb (yPos s1 + len (answerLines qa) * 12) bottomLimit) eqn:Ba;
          [|lia].
        split; [now apply Qgtb_true|]. split; [lia|].
        assert (i = S (getNumberOfPages (doc s1))) as -> by lia.
        apply (head_page_forEach pairs s3); [exact L3|lia| |exact Hrest].
        rewrite E3. cbn [doc]. rewrite E2.
        exact (placeBlock_opens _ _ _
                 {| doc := setTextColor (RGB 50 50 50)
                             (setFontSize 11 (setFont Normal (doc s1)));
                    yPos := yPos s1 |} Ba).
    + destruct (IH s3 L3 Hrest i ltac:(lia))
        as (before & after & qa' & s & Hsplit & Hbefore & Hcase).
      exists (qa :: before), after, qa', s.
      split; [now rewrite Hsplit|]. split; [|exact Hcase].
      cbn [forEach]. unfold mbind, M_bind. now rewrite Hqa.
Qed.

(** X4: Every page of an exported document starts with a block: page 1
    with the heading at 80, and every later page with the block whose
    break opened it, the question or the answer that did not fit on
    the page before when its turn came, drawn at the top margin (in
    the 9pt grey the footer left behind). *)
Theorem pages_start_with_a_block (pairs : list QAPair) (s : Env) :
  compose pairs = Ok (tt, s) ->
  head (page 1 (doc s))
  = Some (mkTextOp (titleLines title) (pageWidth / 2) 80 AlignCenter
            Bold 24 (RGB 0 0 0))
  /\ forall i : nat,
      (2 <= i <= getNumberOfPages (doc s))%nat ->
      OpenedByBreak pairs i (doc s).
Proof.
  intros Hrun. split; [exact (proj1 (PagesStartWithBlock_compose pairs s Hrun))|].
  unfold Pdf.compose in Hrun.
  apply bind_Ok in Hrun as ([] & s1 & Hcontent & Hstamp).
  rewrite stampFooters_run in Hstamp. injection Hstamp as <-. cbn [doc].
  unfold Pdf.layoutContent in Hcontent.
  apply bind_Ok in Hcontent as ([] & st & Ht & Hrest).
  assert (Lt : on_last_page (doc st)).
  { rewrite drawTitle_run in Ht. injection Ht as <-. split; simpl; lia. }
  assert (Nt : getNumberOfPages (doc st) = 1%nat).
  { rewrite drawTitle_run in Ht. injection Ht as <-. cbn [doc].
    now rewrite getNumberOfPages_text. }
  destruct (stampedFrom_pages pageHeight pageWidth title
              (getNumberOfPages (doc s1)) 1 (doc s1)) as [Hn Hpages]; [lia|lia|].
  intros i Hi. rewrite Hn in Hi.
  destruct (forEach_opened pairs st s1 Lt Hrest i ltac:(lia))
    as (before & after & qa & s & Hsplit & Hbefore & Hcase).
  exists before, after, qa, s. split; [exact Hsplit|]. split.
  - unfold Pdf.layoutContent, mbind, M_bind, start. now rewrite Ht.
  - rewrite Hpages by lia.
    destruct Hcase as [(Hb & Hi' & Hhead)|(sq & Hq & Hb & Hi' & Hhead)].
    + left. split; [exact Hb|]. split; [exact Hi'|].
      apply head_app_Some. now left.
    + right. exists sq. split; [exact Hq|]. split; [exact Hb|].
      split; [exact Hi'|]. apply head_app_Some. now left.
Qed.

(** *** A transcript that fits on one page *)

Lemma pairHeight_parts (qa : QAPair) :
  0 <= len (questionLines qa) * 14 /\ 0 <= len (answerLines qa) * 12
  /\ pairHeight qa
     == len (questionLines qa) * 14 + len (answerLines qa) * 12 + 50.
Proof.
  split; [apply block_height_nonneg; lra|].
  split; [apply block_height_nonneg; lra|].
  unfold Content.pairHeight. lra.
Qed.

Lemma pairsHeight_nonneg (pairs : list QAPair) : 0 <= pairsHeight pairs.
Proof.
  induction pairs as [|qa pairs IH]; cbn [Content.pairsHeight]; [lra|].
  destruct (pairHeight_parts qa) as (Hq & Ha & E). lra.
Qed.

Lemma placeBlock_stays ls (h gap : Q) (s : Env) :
  yPos s + h <= bottomLimit ->
  getNumberOfPages (doc (placeBlock ls h gap s)) = getNumberOfPages (doc s)
  /\ yPos (placeBlock ls h gap s) = yPos s + (h + gap).
Proof.
  intros H. apply Qgtb_false in H.
  now rewrite placeBlock_getNumberOfPages, placeBlock_yPos, H.
Qed.

Lemma placeBlock_breaks_or_stays ls (h gap : Q) (s : Env) :
  getNumberOfPages (doc (placeBlock ls h gap s)) = S (getNumberOfPages (doc s))
  \/ (yPos s + h <= bottomLimit
      /\ getNumberOfPages (doc (placeBlock ls h gap s)) = getNumberOfPages (doc s)
      /\ yPos (placeBlock ls h gap s) = yPos s + (h + gap)).
Proof.
  rewrite placeBlock_getNumberOfPages, placeBlock_yPos.
  destruct (Qgtb (yPos s + h) bottomLimit) eqn:E; [now left|].
  right. apply Qgtb_false in E. auto.
Qed.

Lemma forEach_fits (pairs : list QAPair) (s s' : Env) :
  forEach drawPair pairs s = Ok (tt, s') ->
  (pairs <> [] -> yPos s + pairsHeight pairs - 35 <= bottomLimit) ->
  getNumberOfPages (doc s') = getNumberOfPages (doc s)
  /\ yPos s' == yPos s + pairsHeight pairs.
Proof.
  revert s. induction pairs as [|qa pairs IH]; intros s Hrun Hfit.
  - injection Hrun as <-. cbn [Content.pairsHeight]. split; [reflexivity|lra].
  - cbn [forEach] in Hrun. apply bind_Ok in Hrun as ([] & s3 & Hqa & Hrest).
    apply drawPair_blocks in Hqa as (s1 & s2 & E1 & E2 & E3).
    specialize (Hfit ltac:(discriminate)). cbn [Content.pairsHeight] in Hfit |- *.
    destruct (pairHeight_parts qa) as (Hq & Ha & Eh).
    pose proof (pairsHeight_nonneg pairs) as Hpos.
    destruct (placeBlock_stays (questionLines qa) (len (questionLines qa) * 14) 15
                {| doc := setTextColor (RGB 0 0 0)
                            (setFontSize 12 (setFont Bold (doc s)));
                   yPos := yPos s |}) as [N1 Y1]; [cbn [yPos]; lra|].
    rewrite <- E1 in N1, Y1. cbn [doc yPos] in N1, Y1.
    destruct (placeBlock_stays (answerLines qa) (len (answerLines qa) * 12) 10
                {| doc := setTextColor (RGB 50 50 50)
                            (setFontSize 11 (setFont Normal (doc s1)));
                   yPos := yPos s1 |}) as [N2 Y2]; [cbn [yPos]; rewrite Y1; lra|].
    rewrite <- E2 in N2, Y2. cbn [doc yPos] in N2, Y2.
    assert (N3 : getNumberOfPages (doc s3) = getNumberOfPages (doc s)).
    { rewrite E3. cbn [doc]. rewrite N2.
      change (getNumberOfPages (setTextColor ?c (setFontSize ?z (setFont ?f ?d))))
        with (getNumberOfPages d). rewrite N1. reflexivity. }
    assert (Y3 : yPos s3 == yPos s + pairHeight qa).
    { rewrite E3. cbn [yPos]. rewrite Y2, Y1. lra. }
    destruct (IH s3 Hrest) as [N Y]; [intros _; lra|].
    split; [congruence|lra].
Qed.

Lemma forEach_breaks_or_flows (pairs : list QAPair) (s s' : Env) :
  forEach drawPair pairs s = Ok (tt, s') ->
  (getNumberOfPages (doc s) < getNumberOfPages (doc s'))%nat
  \/ (pairs <> [] -> yPos s + pairsHeight pairs - 35 <= bottomLimit).
Proof.
  revert s. induction pairs as [|qa pairs IH]; intros s Hrun;
    [right; congruence|].
  cbn [forEach] in Hrun. apply bind_Ok in Hrun as ([] & s3 & Hqa & Hrest).
  pose proof (forEach_pages_bound pairs s3 s' Hrest) as [Hmono _].
  apply drawPair_blocks in Hqa as (s1 & s2 & E1 & E2 & E3).
  destruct (pairHeight_parts qa) as (Hq & Ha & Eh).
  assert (N3 : getNumberOfPages (doc s3) = getNumberOfPages (doc s2))
    by now rewrite E3.
  destruct (placeBlock_breaks_or_stays (questionLines qa)
              (len (questionLines qa) * 14) 15
              {| doc := setTextColor (RGB 0 0 0)
                          (setFontSize 12 (setFont Bold (doc s)));
                 yPos := yPos s |}) as [B1|(F1 & N1 & Y1)];
    rewrite <- E1 in *; cbn [doc yPos] in *;
    change (getNumberOfPages (setTextColor ?c (setFontSize ?z (setFont ?f ?d))))
      with (getNumberOfPages d) in *.
  { left.
    assert (getNumberOfPages (doc s1) <= getNumberOfPages (doc s2))%nat; [|lia].
    rewrite E2, placeBlock_getNumberOfPages. cbn [doc].
    change (getNumberOfPages (setTextColor ?c (setFontSize ?z (setFont ?f ?d))))
      with (getNumberOfPages d).
    destruct (Qgtb _ _); lia. }
  destruct (placeBlock_breaks_or_stays (answerLines qa)
              (len (answerLines qa) * 12) 10
              {| doc := setTextColor (RGB 50 50 50)
                          (setFontSize 11 (setFont Normal (doc s1)));
                 yPos := yPos s1 |}) as [B2|(F2 & N2 & Y2)];
    rewrite <- E2 in *; cbn [doc yPos] in *;
    change (getNumberOfPages (setTextColor ?c (setFontSize ?z (setFont ?f ?d))))
      with (getNumberOfPages d) in *.
  { left. lia. }
  assert (Y3 : yPos s3 == yPos s + pairHeight qa).
  { rewrite E3. cbn [yPos]. rewrite Y2, Y1. lra. }
  destruct (IH s3 Hrest) as [B|F]; [left; lia|].
  right. intros _. cbn [Content.pairsHeight].
  destruct pairs as [|qa' pairs'].
  - cbn [Content.pairsHeight]. rewrite Y1 in F2. lra.
  - specialize (F ltac:(discriminate)). lra.
Qed.

(** X2: A transcript stays on one page exactly when it fits: the export
    of a transcript that is not empty has a single page if and only
    if the last answer, laid out without a break, ends at or above the
    bottom limit; the cursor then ends where the unbroken flow ends. *)
Theorem one_page_iff_it_fits (pairs : list QAPair) (s : Env) :
  pairs <> [] ->
  compose pairs = Ok (tt, s) ->
  (getNumberOfPages (doc s) = 1%nat
   <-> flowEnd title pairs - 35 <= bottomLimit)
  /\ (getNumberOfPages (doc s) = 1%nat -> yPos s == flowEnd title pairs).
Proof.
  intros Hne. unfold Pdf.compose. intros H.
  apply bind_Ok in H as ([] & s1 & Hcontent & Hstamp).
  rewrite stampFooters_run in Hstamp. injection Hstamp as <-. cbn [doc yPos].
  destruct (stampedFrom_pages pageHeight pageWidth title
              (getNumberOfPages (doc s1)) 1 (doc s1)) as [-> _]; [lia|lia|].
  unfold Pdf.layoutContent in Hcontent.
  apply bind_Ok in Hcontent as ([] & s0 & Ht & Hrest).
  rewrite drawTitle_run in Ht. injection Ht as <-.
  unfold Content.flowEnd. fold (titleLines title).
  assert (Hfits : flowEnd title pairs - 35 <= bottomLimit ->
                  getNumberOfPages (doc s1) = 1%nat
                  /\ yPos s1 == flowEnd title pairs).
  { intros Hfit. apply forEach_fits in Hrest as [N Y].
    - split; [rewrite N; reflexivity|exact Y].
    - intros _. cbn [yPos]. exact Hfit. }
  unfold Content.flowEnd in Hfits. fold (titleLines title) in Hfits.
  assert (Hone : getNumberOfPages (doc s1) = 1%nat ->
                 80 + (len (titleLines title) * 26 + 40) + pairsHeight pairs - 35
                 <= bottomLimit).
  { intros N. destruct (forEach_breaks_or_flows pairs _ s1 Hrest) as [B|F].
    - cbn [doc] in B. rewrite getNumberOfPages_text in B.
      change (getNumberOfPages (setTextColor ?c (setFontSize ?z (setFont ?f ?d))))
        with (getNumberOfPages d) in B.
      change (getNumberOfPages create) with 1%nat in B. lia.
    - apply F, Hne. }
  split; [split; [exact Hone|apply Hfits]|].
  intros N. apply Hfits, Hone, N.
Qed.

(** *** The exception of the export *)

Lemma forEach_first_throw (accepted rest : list QAPair) (qa : QAPair) (e : exn) (s : Env) :
  (forall x, In x accepted -> exists plain, toPlainText (a x) = Ok plain) ->
  toPlainText (a qa) = Throw e ->
  forEach drawPair (accepted ++ qa :: rest) s = Throw e.
Proof.
  revert s. induction accepted as [|x accepted IH]; intros s Hacc He.
  - cbn [app forEach]. unfold mbind, M_bind.
    now rewrite (drawPair_Throw _ _ _ _ _ qa e s He).
  - destruct (Hacc x (or_introl eq_refl)) as [plain Hplain].
    cbn [app forEach]. unfold mbind at 1, M_bind.
    rewrite (drawPair_Ok _ _ _ _ _ x plain s Hplain).
    apply IH; [|exact He]. intros y Hy. apply Hacc. now right.
Qed.

Lemma compose_first_throw (accepted rest : list QAPair) (qa : QAPair) (e : exn) :
  (forall x, In x accepted -> exists plain, toPlainText (a x) = Ok plain) ->
  toPlainText (a qa) = Throw e ->
  compose (accepted ++ qa :: rest) = Throw e.
Proof.
  intros Hacc He. unfold Pdf.compose.
  unfold mbind at 1, M_bind. unfold Pdf.layoutContent.
  unfold mbind at 1, M_bind. rewrite drawTitle_run.
  now rewrite (forEach_first_throw accepted rest qa e _ Hacc He).
Qed.

End LayoutMore.

Section HandlerMore.

Variables pageHeight pageWidth : Q.
Variable toPlainText : JsString.t -> Result JsString.t.
Variable splitTextToSize :
  FontStyle -> Z -> JsString.t -> Q -> list JsString.t.
Variable toLowerCase : JsString.t -> JsString.t.

(** X8: The exception that leaves [handlePdfExport] is the one the
    normaliser threw on the first answer it rejected: the pairs after
    it are not looked at, nothing is saved and the application is as
    it was. *)
Theorem export_throws_first_failure
    (ap : App) (accepted rest : list QAPair) (qa : QAPair) (e : exn) :
  qaPairs ap = accepted ++ qa :: rest ->
  (forall x, In x accepted -> exists plain, toPlainText (a x) = Ok plain) ->
  toPlainText (a qa) = Throw e ->
  handlePdfExport pageHeight pageWidth toPlainText splitTextToSize toLowerCase ap
  = (ap, Some e).
Proof.
  intros Hpairs Hacc He. unfold Pdf.handlePdfExport. rewrite Hpairs.
  rewrite (compose_first_throw pageHeight pageWidth toPlainText splitTextToSize
             (chatTitle ap) accepted rest qa e Hacc He).
  now destruct accepted.
Qed.

End HandlerMore.

(** ** The further properties at the concrete instance *)

Section MoreAtSample.

Import Chat Content.

Local Open Scope Q_scope.

Local Abbreviation a4h := Sample.a4_height.
Local Abbreviation a4w := Sample.a4_width.
Local Abbreviation Reachable :=
  (Reachable a4h a4w Sample.plain Sample.split Sample.lower).

Lemma deriveTitle_bounds_witness :
  (length (JsString.lit "What is 2+2?") <= 40)%nat
  /\ deriveTitle (JsString.lit "What is 2+2?") = JsString.lit "What is 2+2?".
Proof.
  assert (H : (length (JsString.lit "What is 2+2?") <= 40)%nat)
    by (vm_compute; lia).
  split; [exact H|].
  exact (proj1 (proj2 (deriveTitle_bounds (JsString.lit "What is 2+2?"))) H).
Defined.

Lemma submit_guard_is_ask_disabled_witness :
  askDisabled Fixture.typing = false
  /\ snd (handleSubmit_begin Fixture.typing)
     = Some (trim (question Fixture.typing))
  /\ trim (question Fixture.typing) <> [].
Proof.
  split; [reflexivity|].
  exact (proj2 (submit_guard_is_ask_disabled Fixture.typing) eq_refl).
Defined.

Lemma setLastAnswer_only_last_answer_witness :
  setLastAnswer (JsString.lit "4") (qaPairs (app Fixture.asked))
  = Ok (qaPairs (app Fixture.answered))
  /\ length (qaPairs (app Fixture.answered)) = length (qaPairs (app Fixture.asked)).
Proof.
  split; [reflexivity|].
  exact (proj1 (setLastAnswer_only_last_answer (JsString.lit "4")
                  (qaPairs (app Fixture.asked)) (qaPairs (app Fixture.answered))
                  eq_refl)).
Defined.

Lemma submit_round_witness :
  askDisabled Fixture.typing = false
  /\ handleSubmit_end (Ok (JsString.lit "4")) (fst (handleSubmit_begin Fixture.typing))
     = Ok Fixture.answered.
Proof.
  split; [reflexivity|].
  exact (submit_round Fixture.typing (Ok (JsString.lit "4")) eq_refl).
Defined.

Lemma answer_on_empty_transcript_throws_witness :
  qaPairs (app initial) = []
  /\ exists e, handleSubmit_end (Ok (JsString.lit "4")) initial = Throw e.
Proof.
  split; [reflexivity|].
  exact (proj1 (proj1 (answer_on_empty_transcript_throws initial
                         (Ok (JsString.lit "4")))) eq_refl).
Defined.

Lemma new_chat_resets_witness :
  app (handleNewChat true Fixture.answered)
  = mkApp defaultTitle [] (downloads (app Fixture.answered)).
Proof.
  exact (proj1 (proj2 (new_chat_resets a4h a4w Sample.plain Sample.split
                         Sample.lower true Fixture.answered)
                  (or_intror eq_refl))).
Defined.

Lemma Reachable_asked : Reachable Fixture.asked.
Proof.
  apply (reach_step _ _ _ _ _ Fixture.typing SubmitClicked).
  - apply (reach_step _ _ _ _ _ initial (Typed (JsString.lit "  What is 2+2? "))).
    + apply reach_initial.
    + apply step_typed.
  - apply step_submit.
Defined.

Lemma Reachable_answered : Reachable Fixture.answered.
Proof.
  apply (reach_step _ _ _ _ _ Fixture.asked (Answered (Ok (JsString.lit "4")))).
  - exact Reachable_asked.
  - apply step_answered; reflexivity.
Defined.

Lemma Reachable_exported : Reachable Fixture.exported.
Proof.
  apply (reach_step _ _ _ _ _ Fixture.answered ExportClicked).
  - exact Reachable_answered.
  - apply step_export.
Defined.

Lemma second_submit_event_sends_nothing_witness :
  exists v2 : View,
    Chat.Step a4h a4w Sample.plain Sample.split Sample.lower
      Fixture.typing SubmitClicked Fixture.asked
    /\ Chat.Step a4h a4w Sample.plain Sample.split Sample.lower
         Fixture.asked SubmitClicked v2
    /\ v2 = Fixture.asked
    /\ snd (handleSubmit_begin Fixture.asked) = None.
Proof.
  exists (fst (handleSubmit_begin Fixture.asked)).
  split; [apply step_submit|]. split; [apply step_submit|].
  exact (second_submit_event_sends_nothing a4h a4w Sample.plain Sample.split
           Sample.lower Fixture.typing Fixture.asked
           (fst (handleSubmit_begin Fixture.asked))
           (step_submit _ _ _ _ _ Fixture.typing)
           (step_submit _ _ _ _ _ Fixture.asked)).
Defined.

Lemma reachable_questions_trimmed_witness :
  Reachable Fixture.answered
  /\ Forall (fun qa => q qa <> [] /\ trim (q qa) = q qa)
       (qaPairs (app Fixture.answered)).
Proof.
  split; [exact Reachable_answered|].
  exact (reachable_questions_trimmed a4h a4w Sample.plain Sample.split
           Sample.lower Fixture.answered Reachable_answered).
Defined.

Lemma reachable_title_of_first_question_witness :
  Reachable Fixture.answered
  /\ (length (chatTitle (app Fixture.answered)) <= 43)%nat.
Proof.
  split; [exact Reachable_answered|].
  exact (proj2 (reachable_title_of_first_question a4h a4w Sample.plain
                  Sample.split Sample.lower Fixture.answered Reachable_answered)).
Defined.

Lemma reachable_loading_last_answer_empty_witness :
  Reachable Fixture.asked
  /\ isLoading Fixture.asked = true
  /\ (qaPairs (app Fixture.asked) = []
      \/ exists qa, last (qaPairs (app Fixture.asked)) = Some qa /\ a qa = []).
Proof.
  split; [exact Reachable_asked|]. split; [reflexivity|].
  exact (reachable_loading_last_answer_empty a4h a4w Sample.plain Sample.split
           Sample.lower Fixture.asked Reachable_asked eq_refl).
Defined.

Lemma fileName_safe_witness :
  lowers_ascii Sample.lower
  /\ exists stem : JsString.t,
      fileName Sample.lower (JsString.lit "What is 2+2?")
      = stem ++ JsString.lit ".pdf"
      /\ length stem = length (JsString.lit "What is 2+2?")
      /\ Forall (fun c => JsString.is_lower c || JsString.is_digit c
                          || (c =? JsString.underscore)%N = true) stem.
Proof.
  assert (H : lowers_ascii Sample.lower) by (intros s _; reflexivity).
  split; [exact H|].
  exact (fileName_safe Sample.lower H (JsString.lit "What is 2+2?")).
Defined.

Lemma reachable_file_names_short_witness :
  lowers_ascii Sample.lower
  /\ Reachable Fixture.exported
  /\ Forall (fun f => (length (fst f) <= 47)%nat) (downloads (app Fixture.exported)).
Proof.
  assert (H : lowers_ascii Sample.lower) by (intros s _; reflexivity).
  split; [exact H|]. split; [exact Reachable_exported|].
  exact (reachable_file_names_short a4h a4w Sample.plain Sample.split
           Sample.lower H Fixture.exported Reachable_exported).
Defined.

Lemma save_then_load_restores_witness :
  qaPairs (app Fixture.answered) <> []
  /\ loadEffect Fixture.readBack
       (saveEffect Fixture.storedText Fixture.answered ∅) initial
     = Ok {| question := []; isLoading := false;
             app := {| chatTitle := chatTitle (app Fixture.answered);
                       qaPairs := qaPairs (app Fixture.answered);
                       downloads := [] |} |}.
Proof.
  assert (Hne : qaPairs (app Fixture.answered) <> []) by (vm_compute; discriminate).
  split; [exact Hne|].
  apply (save_then_load_restores Fixture.storedText Fixture.readBack
           Fixture.answered initial ∅ Hne).
  - vm_compute. discriminate.
  - reflexivity.
Defined.

Lemma save_empty_transcript_forgets_witness :
  qaPairs (app initial) = []
  /\ saveEffect Fixture.storedText initial ∅ !! storageKey = None.
Proof.
  split; [reflexivity|].
  exact (proj1 (save_empty_transcript_forgets Fixture.storedText Fixture.readBack
                  initial initial ∅ eq_refl)).
Defined.

Lemma saveEffect_one_item_witness :
  JsString.lit "theme" <> storageKey
  /\ saveEffect Fixture.storedText Fixture.answered ∅ !! JsString.lit "theme"
     = (∅ : Storage) !! JsString.lit "theme".
Proof.
  assert (Hk : JsString.lit "theme" <> storageKey) by (vm_compute; discriminate).
  split; [exact Hk|].
  exact (proj1 (saveEffect_one_item Fixture.storedText Fixture.answered
                  Fixture.answered ∅) (JsString.lit "theme") Hk).
Defined.

Lemma run_twoPages :
  compose a4h a4w Sample.plain Sample.split (JsString.lit "T") Sample.longQuestion
  = Ok (tt, Fixture.twoPages).
Proof. vm_compute. reflexivity. Defined.

Lemma run_onePage :
  compose a4h a4w Sample.plain Sample.split
    (chatTitle (app Fixture.answered)) (qaPairs (app Fixture.answered))
  = Ok (tt, Fixture.onePage).
Proof. vm_compute. reflexivity. Defined.

(** The new document of line 113 matters: run on the document an
    export has left behind, lines 151-180 draw another one. *)
Example layout_on_used_document_differs :
  (layoutContent a4h a4w Sample.plain Sample.split
     (chatTitle (app Fixture.answered)) (qaPairs (app Fixture.answered));;
   stampFooters a4h a4w (chatTitle (app Fixture.answered))) Fixture.onePage
  <> compose a4h a4w Sample.plain Sample.split
       (chatTitle (app Fixture.answered)) (qaPairs (app Fixture.answered)).
Proof. vm_compute. discriminate. Qed.


(** In the export of [Sample.longQuestion] the question fits on page 1
    and the answer does not: page 2 starts with the answer. *)
Example second_page_starts_with_the_answer :
  head (page 2 (doc Fixture.twoPages))
  = Some (blockAtTop [JsString.lit "A"]).
Proof. vm_compute. reflexivity. Qed.

Lemma advance_overshoot_bounded_witness :
  exists s',
    drawQuestion a4h a4w Sample.split (JsString.lit "T")
      (mkQA (Sample.tall 46) (JsString.lit "A")) start = Ok (tt, s')
    /\ yPos s' <= bottomLimit a4h + 15.
Proof.
  eexists. split; [apply drawQuestion_run|].
  apply (proj1 (advance_overshoot_bounded a4h a4w Sample.plain Sample.split
                  (JsString.lit "T"))
           (mkQA (Sample.tall 46) (JsString.lit "A")) start).
  - vm_compute. discriminate.
  - apply drawQuestion_run.
Defined.

Lemma block_font_depends_on_break_witness :
  current_exists (doc start)
  /\ exists s',
      drawQuestion a4h a4w Sample.split (JsString.lit "T")
        (mkQA (Sample.tall 60) (JsString.lit "A")) start = Ok (tt, s')
      /\ lastDrawn (doc s')
         = Some (if Qgtb (yPos start
                          + len (questionLines a4w Sample.split
                                   (mkQA (Sample.tall 60) (JsString.lit "A"))) * 14)
                      (bottomLimit a4h)
                 then mkTextOp (questionLines a4w Sample.split
                                  (mkQA (Sample.tall 60) (JsString.lit "A")))
                        pageMargin pageMargin AlignLeft Normal 9 (Gray 150)
                 else mkTextOp (questionLines a4w Sample.split
                                  (mkQA (Sample.tall 60) (JsString.lit "A")))
                        pageMargin (yPos start) AlignLeft Bold 12 (RGB 0 0 0)).
Proof.
  assert (Hc : current_exists (doc start)) by (vm_compute; lia).
  split; [exact Hc|].
  exact (proj1 (block_font_depends_on_break a4h a4w Sample.plain Sample.split
                  (JsString.lit "T"))
           (mkQA (Sample.tall 60) (JsString.lit "A")) start Hc).
Defined.

Lemma blocks_in_reading_order_witness :
  100 < a4h
  /\ List.map op_lines (contentOps a4h (doc Fixture.twoPages))
     = blocksOf a4w Sample.plain Sample.split (JsString.lit "T")
         Sample.longQuestion.
Proof.
  assert (H : 100 < a4h) by (vm_compute; reflexivity).
  split; [exact H|].
  exact (blocks_in_reading_order a4h a4w Sample.plain Sample.split
           (JsString.lit "T") Sample.longQuestion Fixture.twoPages H run_twoPages).
Defined.

Lemma page_count_bounds_witness :
  (1 <= getNumberOfPages (doc Fixture.twoPages)
   <= 1 + 2 * length Sample.longQuestion)%nat.
Proof.
  exact (page_count_bounds a4h a4w Sample.plain Sample.split (JsString.lit "T")
           Sample.longQuestion Fixture.twoPages run_twoPages).
Defined.

Lemma pages_start_with_a_block_witness :
  head (page 1 (doc Fixture.twoPages))
  = Some (mkTextOp (titleLines a4w Sample.split (JsString.lit "T"))
            (a4w / 2) 80 AlignCenter Bold 24 (RGB 0 0 0))
  /\ forall i : nat,
      (2 <= i <= getNumberOfPages (doc Fixture.twoPages))%nat ->
      OpenedByBreak a4h a4w Sample.plain Sample.split (JsString.lit "T")
        Sample.longQuestion i (doc Fixture.twoPages).
Proof.
  exact (pages_start_with_a_block a4h a4w Sample.plain Sample.split
           (JsString.lit "T") Sample.longQuestion Fixture.twoPages run_twoPages).
Defined.

Lemma one_page_iff_it_fits_witness :
  qaPairs (app Fixture.answered) <> []
  /\ flowEnd a4w Sample.plain Sample.split (chatTitle (app Fixture.answered))
       (qaPairs (app Fixture.answered)) - 35 <= bottomLimit a4h
  /\ getNumberOfPages (doc Fixture.onePage) = 1%nat.
Proof.
  assert (Hne : qaPairs (app Fixture.answered) <> []) by (vm_compute; discriminate).
  assert (Hfit : flowEnd a4w Sample.plain Sample.split
                   (chatTitle (app Fixture.answered))
                   (qaPairs (app Fixture.answered)) - 35 <= bottomLimit a4h)
    by (vm_compute; discriminate).
  split; [exact Hne|]. split; [exact Hfit|].
  exact (proj2 (proj1 (one_page_iff_it_fits a4h a4w Sample.plain Sample.split
                         (chatTitle (app Fixture.answered))
                         (qaPairs (app Fixture.answered)) Fixture.onePage
                         Hne run_onePage)) Hfit).
Defined.

Lemma footers_after_compose_witness :
  (1 <= 1 <= getNumberOfPages (doc Fixture.twoPages))%nat
  /\ pageNumberStamps (page 1 (doc Fixture.twoPages))
     = [footerNumberOp a4h a4w 1; footerNumberOp a4h a4w 1].
Proof.
  assert (H : (1 <= 1 <= getNumberOfPages (doc Fixture.twoPages))%nat)
    by (vm_compute; lia).
  split; [exact H|].
  exact (footers_after_compose a4h a4w Sample.plain Sample.split
           (JsString.lit "T") Sample.longQuestion Fixture.twoPages
           run_twoPages 1%nat H).
Defined.

Lemma export_throws_first_failure_witness :
  exists e,
    Sample.plain_or_throw [0%N] = Throw e
    /\ handlePdfExport a4h a4w Sample.plain_or_throw Sample.split Sample.lower
         (mkApp (JsString.lit "T") Fixture.secondRejected [])
       = (mkApp (JsString.lit "T") Fixture.secondRejected [], Some e).
Proof.
  eexists. split; [reflexivity|].
  apply (export_throws_first_failure a4h a4w Sample.plain_or_throw Sample.split
           Sample.lower (mkApp (JsString.lit "T") Fixture.secondRejected [])
           [mkQA (JsString.lit "Q1") (JsString.lit "A1")]
           [mkQA (JsString.lit "Q3") (JsString.lit "A3")]
           (mkQA (JsString.lit "Q2") [0%N])).
  - reflexivity.
  - intros x [<- | []]. eexists. reflexivity.
  - reflexivity.
Defined.

End MoreAtSample.
